(** * Financial-QA-Assistant: a shallow embedding of [src/app.py]

    The development covers [DocumentProcessor] (text extraction from PDF and
    Excel, the pattern-based metric extraction, [process_document]) and
    [OllamaClient.generate_response].

    Characters are the code points U+0000..U+00FF (Latin-1), one [ascii] each;
    Python's [str.lower], [\s] and [str.isspace] are written out for that
    range. *)

From Stdlib Require Import String Ascii List Bool Arith ZArith QArith Lia.
Import ListNotations.
Open Scope nat_scope.
Open Scope string_scope.

(** ** Characters *)

(** [str.isspace] (and the regex class [\s] of a [str] pattern) on
    U+0000..U+00FF: \t \n \v \f \r, \x1c..\x1f, space, \x85 and \xa0. *)
Definition py_isspace (a : ascii) : bool :=
  let n := nat_of_ascii a in
  (Nat.leb 9 n && Nat.leb n 13) || (Nat.leb 28 n && Nat.leb n 32)
  || Nat.eqb n 133 || Nat.eqb n 160.

(** [str.lower] on one code point of U+0000..U+00FF: A..Z and
    U+00C0..U+00DE except U+00D7 move down by 32. *)
Definition py_lower_char (a : ascii) : ascii :=
  let n := nat_of_ascii a in
  if (Nat.leb 65 n && Nat.leb n 90) || (Nat.leb 192 n && Nat.leb n 222 && negb (Nat.eqb n 215))
  then ascii_of_nat (n + 32) else a.

Fixpoint py_lower (s : string) : string :=
  match s with
  | EmptyString => EmptyString
  | String a t => String (py_lower_char a) (py_lower t)
  end.

Definition is_digit (a : ascii) : bool :=
  Nat.leb 48 (nat_of_ascii a) && Nat.leb (nat_of_ascii a) 57.

(** [s.replace(',', '')] *)
Fixpoint remove_commas (s : string) : string :=
  match s with
  | EmptyString => EmptyString
  | String a t => if Ascii.eqb a ","%char then remove_commas t else String a (remove_commas t)
  end.

Fixpoint str_take (n : nat) (s : string) : string :=
  match n, s with
  | 0, _ => EmptyString
  | S n', String a t => String a (str_take n' t)
  | S _, EmptyString => EmptyString
  end.

Fixpoint strip_prefix (l s : string) : option string :=
  match l, s with
  | EmptyString, _ => Some s
  | String a l', String b s' => if Ascii.eqb a b then strip_prefix l' s' else None
  | String _ _, EmptyString => None
  end.

(** ** Python's [re]: the fragment the six patterns use

    Character classes, greedy [*] and [+] over a class, literals, ordered
    alternation [|], concatenation, greedy [(?:...)?] and the capturing
    group.  The matcher is the backtracking one of [sre], written in
    continuation-passing style: a continuation receives the rest of the
    input and the current capture of group 1. *)

Inductive cls_item :=
| CRange (lo hi : ascii)   (* [lo-hi] *)
| CSpace                   (* [\s] *)
| CChar (a : ascii).       (* a literal character *)

Definition cls := list cls_item.

Definition in_item (a : ascii) (i : cls_item) : bool :=
  match i with
  | CRange lo hi => Nat.leb (nat_of_ascii lo) (nat_of_ascii a) && Nat.leb (nat_of_ascii a) (nat_of_ascii hi)
  | CSpace => py_isspace a
  | CChar b => Ascii.eqb a b
  end.

Definition in_cls (c : cls) (a : ascii) : bool := existsb (in_item a) c.

Inductive re :=
| RLit (l : string)        (* a literal *)
| RStar (c : cls)          (* [c*], greedy *)
| RPlus (c : cls)          (* [c+], greedy *)
| RAlt (r1 r2 : re)        (* [r1|r2], left alternative first *)
| RSeq (r1 r2 : re)        (* [r1 r2] *)
| ROpt (r : re)            (* [(?:r)?], greedy *)
| RGroup (r : re).         (* [(r)], group 1 *)

Definition mstate := (string * option string)%type.
Definition cont := string -> option string -> option mstate.

(** Greedy [c*]: consume as many characters of [c] as possible, then give
    them back one at a time until the continuation succeeds. *)
Fixpoint star_try (c : cls) (s : string) (cap : option string) (k : cont) : option mstate :=
  match s with
  | EmptyString => k s cap
  | String a t =>
      if in_cls c a then
        match star_try c t cap k with
        | Some x => Some x
        | None => k s cap
        end
      else k s cap
  end.

Fixpoint mt (r : re) (s : string) (cap : option string) (k : cont) : option mstate :=
  match r with
  | RLit l => match strip_prefix l s with Some s' => k s' cap | None => None end
  | RStar c => star_try c s cap k
  | RPlus c =>
      match s with
      | String a t => if in_cls c a then star_try c t cap k else None
      | EmptyString => None
      end
  | RAlt r1 r2 =>
      match mt r1 s cap k with
      | Some x => Some x
      | None => mt r2 s cap k
      end
  | RSeq r1 r2 => mt r1 s cap (fun s' cap' => mt r2 s' cap' k)
  | ROpt r1 =>
      match mt r1 s cap k with
      | Some x => Some x
      | None => k s cap
      end
  | RGroup r1 => mt r1 s cap (fun s' _ => k s' (Some (str_take (String.length s - String.length s') s)))
  end.

(** [pattern.match(s)]: the rest of [s] after the match, and group 1. *)
Definition match_at (r : re) (s : string) : option mstate :=
  mt r s None (fun s' cap => Some (s', cap)).

(** [re.findall(pattern, s)] for a pattern with one group: scan the
    positions left to right; after a match resume at its end (one character
    further for an empty match, which the patterns below never produce). *)
Fixpoint findall_from (fuel : nat) (r : re) (s : string) : list string :=
  match fuel with
  | 0 => []
  | S f =>
      match match_at r s with
      | Some (rest, cap) =>
          let g := match cap with Some g => g | None => EmptyString end in
          g :: (if Nat.ltb (String.length rest) (String.length s) then findall_from f r rest
                else match s with EmptyString => [] | String _ t => findall_from f r t end)
      | None => match s with EmptyString => [] | String _ t => findall_from f r t end
      end
  end.

Definition re_findall (r : re) (s : string) : list string :=
  findall_from (S (String.length s)) r s.

(** ** The pattern table of [extract_financial_metrics] *)

(** [[\s:$]] *)
Definition sep_cls : cls := [CSpace; CChar ":"%char; CChar "$"%char].
(** [[0-9,]] *)
Definition num_cls : cls := [CRange "0"%char "9"%char; CChar ","%char].
(** [[0-9]] *)
Definition digit_cls : cls := [CRange "0"%char "9"%char].

(** [(?:l|l1|...|ln)] *)
Fixpoint alts (l : string) (ls : list string) : re :=
  match ls with
  | [] => RLit l
  | l' :: ls' => RAlt (RLit l) (alts l' ls')
  end.

(** [(?:l|ls...)[\s:$]*([0-9,]+(?:\.[0-9]+)?)] *)
Definition label_number (l : string) (ls : list string) : re :=
  RSeq (alts l ls)
       (RSeq (RStar sep_cls)
             (RGroup (RSeq (RPlus num_cls) (ROpt (RSeq (RLit ".") (RPlus digit_cls)))))).

Definition patterns : list (string * re) :=
  [("revenue", label_number "revenue" ["sales"; "income"]);
   ("expenses", label_number "expenses" ["costs"]);
   ("profit", label_number "profit" ["net income"; "earnings"]);
   ("assets", label_number "total assets" ["assets"]);
   ("liabilities", label_number "total liabilities" ["liabilities"]);
   ("equity", label_number "equity" ["shareholders equity"])].

(** ** [float(value)] on the strings it receives here

    The argument is a capture with its commas removed, so it only holds
    digits and at most one '.' (see [capture_shape] below).  On such strings
    Python's [float] accepts [digits], [digits.], [.digits] and
    [digits.digits] and raises [ValueError] otherwise (the empty string,
    a lone '.').  Signs, exponents, underscores, surrounding whitespace and
    inf/nan are outside this alphabet and are not modelled.  The result is
    the exact decimal the string denotes; the rounding to binary64 that
    [float] then applies is a function of that decimal, so equal decimals
    give equal floats. *)

Definition digit_val (a : ascii) : Z := (Z.of_nat (nat_of_ascii a) - 48)%Z.

Fixpoint frac_part (s : string) (m : Z) (e nd : nat) : option (Z * nat * nat) :=
  match s with
  | EmptyString => Some (m, e, nd)
  | String a t => if is_digit a then frac_part t (10 * m + digit_val a)%Z (S e) (S nd) else None
  end.

Fixpoint int_part (s : string) (m : Z) (nd : nat) : option (Z * nat * nat) :=
  match s with
  | EmptyString => Some (m, 0%nat, nd)
  | String a t =>
      if is_digit a then int_part t (10 * m + digit_val a)%Z (S nd)
      else if Ascii.eqb a "."%char then frac_part t m 0 nd
      else None
  end.

Definition pow10 (e : nat) : positive := Z.to_pos (10 ^ Z.of_nat e)%Z.

Definition py_float (s : string) : option Q :=
  match int_part s 0%Z 0 with
  | Some (m, e, nd) => if Nat.eqb nd 0 then None else Some (Qmake m (pow10 e))
  | None => None
  end.

(** ** [extract_financial_metrics] *)

Inductive metric_value :=
| VFloat (f : Q)
| VStr (s : string).

(** A Python dict with string keys, in insertion order. *)
Definition dict (V : Type) := list (string * V).

(** [d[k] = v]: an existing key keeps its position. *)
Fixpoint dict_set {V} (k : string) (v : V) (d : dict V) : dict V :=
  match d with
  | [] => [(k, v)]
  | (k', v') :: d' => if String.eqb k k' then (k, v) :: d' else (k', v') :: dict_set k v d'
  end.

Fixpoint dict_get {V} (k : string) (d : dict V) : option V :=
  match d with
  | [] => None
  | (k', v) :: d' => if String.eqb k k' then Some v else dict_get k d'
  end.

(** The value stored for the first match [m0]. *)
Definition clean_value (m0 : string) : metric_value :=
  let value := remove_commas m0 in
  match py_float value with
  | Some f => VFloat f
  | None => VStr value
  end.

(** One iteration of [for metric, pattern in patterns.items()]. *)
Definition metric_step (low : string) (metrics : dict metric_value) (mp : string * re)
  : dict metric_value :=
  let (metric, pattern) := mp in
  match re_findall pattern low with
  | [] => metrics
  | m0 :: _ => dict_set metric (clean_value m0) metrics
  end.

Definition extract_financial_metrics (text : string) : dict metric_value :=
  fold_left (metric_step (py_lower text)) patterns [].

(** ** Derived forms of the matcher on [label_number]

    These functions describe what the backtracking matcher computes on the
    six patterns; the lemmas below prove that it does. *)

Fixpoint all_in (c : cls) (s : string) : bool :=
  match s with
  | EmptyString => true
  | String a t => in_cls c a && all_in c t
  end.

(** The longest prefix of [s] in [c], and what follows it. *)
Fixpoint span_take (c : cls) (s : string) : string :=
  match s with
  | EmptyString => EmptyString
  | String a t => if in_cls c a then String a (span_take c t) else EmptyString
  end.

Fixpoint span_drop (c : cls) (s : string) : string :=
  match s with
  | EmptyString => EmptyString
  | String a t => if in_cls c a then span_drop c t else s
  end.

(** The alternatives of [(?:l1|...|ln)] tried in order. *)
Fixpoint alt_try (labs : list string) (s : string) (cap : option string) (k : cont)
  : option mstate :=
  match labs with
  | [] => None
  | lab :: labs' =>
      match match strip_prefix lab s with Some s1 => k s1 cap | None => None end with
      | Some x => Some x
      | None => alt_try labs' s cap k
      end
  end.

(** [.digits] when [fp] is not empty, nothing otherwise. *)
Definition frac_str (fp : string) : string :=
  match fp with
  | EmptyString => EmptyString
  | String _ _ => String "."%char fp
  end.

(** [(?:\.[0-9]+)?] after the integer part: what it consumes and what it leaves. *)
Definition frac_take (s3 : string) : string :=
  match s3 with
  | String p (String d u) =>
      if Ascii.eqb "."%char p && is_digit d then frac_str (String d (span_take digit_cls u))
      else EmptyString
  | _ => EmptyString
  end.

Definition frac_rest (s3 : string) : string :=
  match s3 with
  | String p (String d u) =>
      if Ascii.eqb "."%char p && is_digit d then span_drop digit_cls u else s3
  | _ => s3
  end.

(** [[\s:$]*([0-9,]+(?:\.[0-9]+)?)] at the end of a label. *)
Definition number_after (s1 : string) : option mstate :=
  match span_drop sep_cls s1 with
  | String a t =>
      if in_cls num_cls a then
        let r := frac_rest (span_drop num_cls t) in
        Some (r, Some (str_take (String.length (String a t) - String.length r) (String a t)))
      else None
  | EmptyString => None
  end.

(** The group of the leftmost match, i.e. [re.search(pattern, s).group(1)]. *)
Fixpoint first_match (r : re) (s : string) : option string :=
  match match_at r s with
  | Some (_, cap) => Some (match cap with Some g => g | None => EmptyString end)
  | None =>
      match s with
      | EmptyString => None
      | String _ t => first_match r t
      end
  end.

(** The decimal value of a string of digits, read left to right. *)
Fixpoint digits_from (s : string) (m : Z) : Z :=
  match s with
  | EmptyString => m
  | String a t => digits_from t (10 * m + digit_val a)%Z
  end.

Definition digits_value (s : string) : Z := digits_from s 0%Z.

(** A number token [ip ++ frac_str fp] followed by [post] ends where [post]
    begins: [post] neither extends the integer part nor starts a fraction. *)
Definition number_ends (fp post : string) : bool :=
  match fp with
  | EmptyString =>
      match post with
      | String a u =>
          negb (in_cls num_cls a)
          && negb (Ascii.eqb "."%char a && match u with String b _ => is_digit b | EmptyString => false end)
      | EmptyString => true
      end
  | String _ _ =>
      match post with
      | String a _ => negb (is_digit a)
      | EmptyString => true
      end
  end.

Definition first_char (s : string) : option ascii :=
  match s with EmptyString => None | String a _ => Some a end.

Definition opt_ascii_eqb (x y : option ascii) : bool :=
  match x, y with
  | Some a, Some b => Ascii.eqb a b
  | None, None => true
  | _, _ => false
  end.

(** No label is empty and no two labels start with the same character. *)
Definition heads_distinct (labs : list string) : bool :=
  forallb (fun x => negb (String.eqb x EmptyString)) labs
  && forallb (fun x => forallb (fun y => negb (opt_ascii_eqb (first_char x) (first_char y))
                                          || String.eqb x y) labs) labs.

(** Is there, at one of the first [n] positions of [s], a label of [labs]
    followed by separators and a digit or comma? *)
Definition label_number_here (labs : list string) (s : string) : bool :=
  existsb (fun lab =>
             match strip_prefix lab s with
             | Some s1 =>
                 match span_drop sep_cls s1 with
                 | String c _ => in_cls num_cls c
                 | EmptyString => false
                 end
             | None => false
             end) labs.

Fixpoint label_number_in (n : nat) (labs : list string) (s : string) : bool :=
  match n with
  | 0 => false
  | S n' =>
      label_number_here labs s
      || match s with EmptyString => false | String _ t => label_number_in n' labs t end
  end.

(** ** Exceptions and effects

    The exceptions the code can meet, all subclasses of [Exception].  In
    [requests], [ConnectTimeout] derives from both [ConnectionError] and
    [Timeout], [ReadTimeout] from [Timeout] only. *)

Inductive py_exn :=
| PdfReadError (msg : string)       (* raised by PyPDF2 on a malformed file *)
| ExcelReadError (msg : string)     (* raised by pandas.read_excel *)
| ConnectionError (msg : string)    (* requests.exceptions.ConnectionError *)
| ConnectTimeout (msg : string)     (* requests.exceptions.ConnectTimeout *)
| ReadTimeout (msg : string)        (* requests.exceptions.ReadTimeout *)
| RequestException (msg : string)   (* any other requests error *)
| JSONDecodeError (msg : string)    (* response.json() on a body that is not JSON *)
| KeyError (msg : string).          (* a missing dict key *)

(** [str(e)] *)
Definition exn_str (e : py_exn) : string :=
  match e with
  | PdfReadError m | ExcelReadError m | ConnectionError m | ConnectTimeout m
  | ReadTimeout m | RequestException m | JSONDecodeError m | KeyError m => m
  end.

(** [isinstance(e, requests.exceptions.ConnectionError)] *)
Definition is_ConnectionError (e : py_exn) : bool :=
  match e with
  | ConnectionError _ | ConnectTimeout _ => true
  | _ => false
  end.

(** [isinstance(e, requests.exceptions.Timeout)] *)
Definition is_Timeout (e : py_exn) : bool :=
  match e with
  | ConnectTimeout _ | ReadTimeout _ => true
  | _ => false
  end.

Inductive result (A : Type) : Type :=
| Ok (a : A)
| Err (e : py_exn).
Arguments Ok {A} a.
Arguments Err {A} e.

(** Code that may raise and that writes to the Streamlit page: the list of
    messages shown with [st.error]. *)
Definition ui_log := list string.
Definition PyM (A : Type) := ui_log -> result A * ui_log.

Definition ret {A} (a : A) : PyM A := fun u => (Ok a, u).

Definition bindM {A B} (m : PyM A) (f : A -> PyM B) : PyM B :=
  fun u => match m u with
           | (Ok a, u') => f a u'
           | (Err e, u') => (Err e, u')
           end.

Notation "x <- m ;; k" := (bindM m (fun x => k)) (at level 61, m at next level, right associativity).

Definition lift {A} (r : result A) : PyM A := fun u => (r, u).

(** [try: m except Exception as e: h(e)] *)
Definition try_except {A} (m : PyM A) (h : py_exn -> PyM A) : PyM A :=
  fun u => match m u with
           | (Err e, u') => h e u'
           | r => r
           end.

(** [st.error(msg)] *)
Definition st_error (msg : string) : PyM unit := fun u => (Ok tt, app u [msg]).

Definition nl : string := String (ascii_of_nat 10) EmptyString.

(** ** The libraries the code calls *)

(** PyPDF2: [PdfReader(f).pages], in document order, and [page.extract_text()]. *)
Class PdfLib (doc page : Type) := {
  PdfReader : doc -> result (list page);
  extract_text : page -> result string
}.

(** pandas: [pd.read_excel(f, sheet_name=None).items()], in workbook sheet
    order, and [df.to_string()]. *)
Class PandasLib (doc frame : Type) := {
  read_excel : doc -> result (list (string * frame));
  to_string : frame -> string
}.

(** ** [DocumentProcessor] *)

Fixpoint pdf_pages_text {doc page} `{PdfLib doc page} (pages : list page) (text : string)
  : result string :=
  match pages with
  | [] => Ok text
  | p :: ps =>
      match extract_text p with
      | Ok t => pdf_pages_text ps (text ++ t ++ nl)
      | Err e => Err e
      end
  end.

Definition extract_pdf_text {doc page} `{PdfLib doc page} (pdf_file : doc) : PyM string :=
  try_except
    (lift (match PdfReader pdf_file with
           | Ok pages => pdf_pages_text pages EmptyString
           | Err e => Err e
           end))
    (fun e => _ <- st_error ("Error reading PDF: " ++ exn_str e) ;; ret EmptyString).

Record sheet_data (frame : Type) := { dataframe : frame; text : string }.
Arguments dataframe {frame}.
Arguments text {frame}.

(** The loop of [extract_excel_data] over the sheets. *)
Definition process_sheets {doc frame} `{PandasLib doc frame}
  (sheets : list (string * frame)) : dict (sheet_data frame) :=
  fold_left (fun processed_data '(sheet_name, df) =>
               dict_set sheet_name {| dataframe := df; text := to_string df |} processed_data)
            sheets [].

Definition extract_excel_data {doc frame} `{PandasLib doc frame} (excel_file : doc)
  : PyM (dict (sheet_data frame)) :=
  try_except
    (lift (match read_excel excel_file with
           | Ok excel_data => Ok (process_sheets excel_data)
           | Err e => Err e
           end))
    (fun e => _ <- st_error ("Error reading Excel file: " ++ exn_str e) ;; ret []).

(** [self.extracted_data]: the keys 'excel_sheets', 'metrics' and 'raw_text'. *)
Record extracted (frame : Type) := {
  excel_sheets : option (dict (sheet_data frame));
  metrics : option (dict metric_value);
  ed_raw_text : option string
}.
Arguments excel_sheets {frame}.
Arguments metrics {frame}.
Arguments ed_raw_text {frame}.

Record processor (frame : Type) := {
  extracted_data : extracted frame;
  raw_text : string
}.
Arguments extracted_data {frame}.
Arguments raw_text {frame}.

(** [DocumentProcessor()] *)
Definition new_processor {frame} : processor frame :=
  {| extracted_data := {| excel_sheets := None; metrics := None; ed_raw_text := None |};
     raw_text := EmptyString |}.

(** [for sheet_data in excel_data.values(): all_text += sheet_data['text'] + "\n"] *)
Definition combine_sheet_texts {frame} (excel_data : dict (sheet_data frame)) : string :=
  fold_left (fun all_text '(_, sd) => all_text ++ text sd ++ nl) excel_data EmptyString.

(** [process_document(file, file_type)]: the returned dict and the updated
    processor. *)
Definition process_document {doc page frame} `{PdfLib doc page} `{PandasLib doc frame}
  (self : processor frame) (file : doc) (file_type : string)
  : PyM (extracted frame * processor frame) :=
  self1 <- (if String.eqb file_type "pdf" then
              t <- extract_pdf_text file ;;
              ret {| extracted_data := extracted_data self; raw_text := t |}
            else if String.eqb file_type "excel" then
              excel_data <- extract_excel_data file ;;
              let all_text := combine_sheet_texts excel_data in
              ret {| extracted_data :=
                       {| excel_sheets := Some excel_data;
                          metrics := metrics (extracted_data self);
                          ed_raw_text := ed_raw_text (extracted_data self) |};
                     raw_text := all_text |}
            else ret self) ;;
  let ed := {| excel_sheets := excel_sheets (extracted_data self1);
               metrics := Some (extract_financial_metrics (raw_text self1));
               ed_raw_text := Some (raw_text self1) |} in
  ret (ed, {| extracted_data := ed; raw_text := raw_text self1 |}).

(** ** [OllamaClient.generate_response] *)

Record payload := { model : string; prompt_text : string; stream : bool }.

(** A response: its status code and [response.json()], whose fields are
    the strings of the inference service's answer. *)
Record response := { status_code : Z; json : result (dict string) }.

(** [requests.post(url, json=payload, timeout=...)] *)
Class Requests := {
  post : string -> payload -> nat -> result response
}.

Record OllamaClient := { base_url : string }.

Definition default_client : OllamaClient := {| base_url := "http://localhost:11434" |}.

Fixpoint nat_digits (fuel n : nat) (acc : string) : string :=
  match fuel with
  | 0 => acc
  | S f =>
      let acc' := String (ascii_of_nat (48 + n mod 10)) acc in
      if Nat.ltb n 10 then acc' else nat_digits f (n / 10) acc'
  end.

(** [str(n)] for an int *)
Definition int_str (z : Z) : string :=
  if Z.ltb z 0 then "-" ++ nat_digits (S (Z.to_nat (- z))) (Z.to_nat (- z)) EmptyString
  else nat_digits (S (Z.to_nat z)) (Z.to_nat z) EmptyString.

Definition indent : string := "            ".

(** The f-string [full_prompt], line by line. *)
Definition full_prompt (prompt context : string) : string :=
  nl ++ indent ++ "Context from financial document:" ++ nl
  ++ indent ++ substring 0 2000 context ++ "  # Limit context to avoid token limits" ++ nl
  ++ indent ++ nl
  ++ indent ++ "User Question: " ++ prompt ++ nl
  ++ indent ++ nl
  ++ indent ++ "Please answer the question based on the financial document context provided above. " ++ nl
  ++ indent ++ "Be specific and use numbers when available. If you cannot find the information, " ++ nl
  ++ indent ++ "say so clearly." ++ nl
  ++ indent.

Definition ollama_payload (prompt context : string) : payload :=
  {| model := "gemma:2b"; prompt_text := full_prompt prompt context; stream := false |}.

Definition connection_error_answer : string :=
  "Error: Could not connect to Ollama. Please make sure Ollama is running on localhost:11434".

(** The body of the [try]. *)
Definition generate_body `{Requests} (self : OllamaClient) (prompt context : string) : result string :=
  match post (base_url self ++ "/api/generate") (ollama_payload prompt context) 30 with
  | Ok resp =>
      if Z.eqb (status_code resp) 200 then
        match json resp with
        | Ok j =>
            match dict_get "response" j with
            | Some a => Ok a
            | None => Err (KeyError "'response'")
            end
        | Err e => Err e
        end
      else Ok ("Error: Could not connect to Ollama (Status: " ++ int_str (status_code resp) ++ ")")
  | Err e => Err e
  end.

(** [except requests.exceptions.ConnectionError: ...] then
    [except Exception as e: ...] *)
Definition generate_response `{Requests} (self : OllamaClient) (prompt context : string)
  : result string :=
  match generate_body self prompt context with
  | Ok a => Ok a
  | Err e =>
      if is_ConnectionError e then Ok connection_error_answer
      else Ok ("Error: " ++ exn_str e)
  end.

(** The answer of the service when the request succeeds: status 200 and a
    JSON body with a "response" field. *)
Definition service_answer (r : result response) : option string :=
  match r with
  | Ok resp =>
      if Z.eqb (status_code resp) 200 then
        match json resp with Ok j => dict_get "response" j | Err _ => None end
      else None
  | Err _ => None
  end.

(** ** The upload handler of [main] *)

(** [s.endswith(suffix)] *)
Definition py_endswith (s suffix : string) : bool :=
  Nat.leb (String.length suffix) (String.length s)
  && String.eqb (substring (String.length s - String.length suffix) (String.length suffix) s) suffix.

(** [file_type = "pdf" if uploaded_file.name.endswith('.pdf') else "excel"] *)
Definition file_type_of (name : string) : string :=
  if py_endswith name ".pdf" then "pdf" else "excel".

(** [processor = DocumentProcessor()] and
    [document_data = processor.process_document(uploaded_file, file_type)]. *)
Definition upload_document {doc page frame} `{PdfLib doc page} `{PandasLib doc frame}
  (name : string) (uploaded_file : doc) : PyM (extracted frame) :=
  r <- process_document new_processor uploaded_file (file_type_of name) ;;
  ret (fst r).

(** [s.split()]: the maximal runs of characters that are not whitespace;
    [cur] is the run being read. *)
Fixpoint split_words (s cur : string) : list string :=
  match s with
  | EmptyString => if String.eqb cur EmptyString then [] else [cur]
  | String a t =>
      if py_isspace a then
        if String.eqb cur EmptyString then split_words t EmptyString
        else cur :: split_words t EmptyString
      else split_words t (cur ++ String a EmptyString)
  end.

Definition py_split (s : string) : list string := split_words s EmptyString.

(** The "Words" statistic of the document summary: [len(raw_text.split())]. *)
Definition word_count (raw_text : string) : nat := List.length (py_split raw_text).

(** ** Sample libraries and services *)

(** A PDF reader for which every file is malformed. *)
Definition broken_pdf : PdfLib unit unit :=
  {| PdfReader := fun _ => Err (PdfReadError "EOF marker not found");
     extract_text := fun _ => Ok EmptyString |}.

(** A workbook with the sheets "A" and "B", in that order; a frame is shown
    as its own rendering. *)
Definition two_sheet_book : PandasLib unit string :=
  {| read_excel := fun _ => Ok [("A", "a-table"); ("B", "b-table")];
     to_string := fun df => df |}.

(** An inference endpoint that refuses the connection. *)
Definition refusing_endpoint : Requests :=
  {| post := fun _ _ _ => Err (ConnectionError "[Errno 111] Connection refused") |}.

(** An inference endpoint that accepts the connection and never answers. *)
Definition silent_endpoint : Requests :=
  {| post := fun _ _ _ => Err (ReadTimeout "Read timed out. (read timeout=30)") |}.

(** A readable two-page PDF; a page is shown as its own text. *)
Definition two_page_pdf : PdfLib unit string :=
  {| PdfReader := fun _ => Ok ["Revenue: 100"; "Costs: 40"];
     extract_text := fun p => Ok p |}.

(** A workbook pandas cannot open. *)
Definition broken_book : PandasLib unit string :=
  {| read_excel := fun _ => Err (ExcelReadError "File is not a zip file");
     to_string := fun df => df |}.

(** An endpoint that answers with status 404. *)
Definition not_found_endpoint : Requests :=
  {| post := fun _ _ _ => Ok {| status_code := 404%Z; json := Ok [("error", "model not found")] |} |}.

(** An endpoint that answers with status 200 and no "response" field. *)
Definition keyless_endpoint : Requests :=
  {| post := fun _ _ _ => Ok {| status_code := 200%Z; json := Ok [("error", "model not found")] |} |}.

Example ex_c6 : extract_financial_metrics "Total Revenue: $1,234,567.89" = [("revenue", VFloat (123456789 # 100))].
Proof. vm_compute. reflexivity. Qed.

Example ex_c4 : extract_financial_metrics "costs: ,, and revenue 12,34a" = [("revenue", VFloat (1234 # 1)); ("expenses", VStr EmptyString)].
Proof. vm_compute. reflexivity. Qed.

(** ** Character classes *)

Ltac all_chars a :=
  destruct a as [b0 b1 b2 b3 b4 b5 b6 b7];
  destruct b0, b1, b2, b3, b4, b5, b6, b7.

Lemma sep_not_num : forall a, in_cls sep_cls a = true -> in_cls num_cls a = false.
Proof. intro a; all_chars a; vm_compute; congruence. Qed.

Lemma digit_cls_is_digit : forall a, in_cls digit_cls a = is_digit a.
Proof. intro a; all_chars a; reflexivity. Qed.

Lemma digit_num : forall a, is_digit a = true -> in_cls num_cls a = true.
Proof. intro a; all_chars a; vm_compute; congruence. Qed.

Lemma dot_not_num : in_cls num_cls "."%char = false.
Proof. reflexivity. Qed.

Lemma digit_not_comma : forall a, is_digit a = true -> Ascii.eqb a ","%char = false.
Proof. intro a; all_chars a; vm_compute; congruence. Qed.

Lemma num_digit_or_comma : forall a,
  in_cls num_cls a = true -> is_digit a = true \/ a = ","%char.
Proof. intro a; all_chars a; vm_compute; auto; congruence. Qed.

(** ** Strings *)

Lemma strip_prefix_app : forall l s, strip_prefix l (l ++ s) = Some s.
Proof.
  induction l as [|a l IH]; intro s; simpl; auto.
  rewrite Ascii.eqb_refl; apply IH.
Qed.

Lemma strip_prefix_some : forall l s s1, strip_prefix l s = Some s1 -> s = l ++ s1.
Proof.
  induction l as [|a l IH]; intros s s1 H; simpl in *.
  - congruence.
  - destruct s as [|b s]; [discriminate|].
    destruct (Ascii.eqb a b) eqn:E; [|discriminate].
    apply Ascii.eqb_eq in E; subst b; f_equal; auto.
Qed.

Lemma str_length_app : forall x y, String.length (x ++ y) = String.length x + String.length y.
Proof. induction x as [|a x IH]; intro y; simpl; auto. Qed.

Lemma str_app_assoc : forall x y z, (x ++ y) ++ z = x ++ (y ++ z).
Proof. induction x as [|a x IH]; intros y z; simpl; f_equal; auto. Qed.

Lemma str_app_nil : forall x, x ++ EmptyString = x.
Proof. induction x as [|a x IH]; simpl; f_equal; auto. Qed.

Lemma str_take_length_app : forall x y, str_take (String.length x) (x ++ y) = x.
Proof. induction x as [|a x IH]; intro y; simpl; f_equal; auto. Qed.

Lemma str_take_app : forall x y, str_take (String.length (x ++ y) - String.length y) (x ++ y) = x.
Proof.
  intros x y; rewrite str_length_app.
  replace (String.length x + String.length y - String.length y) with (String.length x) by lia.
  apply str_take_length_app.
Qed.

Lemma str_take_split : forall s x y, s = x ++ y -> str_take (String.length s - String.length y) s = x.
Proof. intros s x y ->; apply str_take_app. Qed.

Lemma span_split : forall c s, s = span_take c s ++ span_drop c s.
Proof.
  induction s as [|a t IH]; simpl; auto.
  destruct (in_cls c a); simpl; auto; f_equal; auto.
Qed.

Lemma all_in_span_take : forall c s, all_in c (span_take c s) = true.
Proof.
  induction s as [|a t IH]; simpl; auto.
  destruct (in_cls c a) eqn:E; simpl; auto; rewrite E; auto.
Qed.

Lemma span_drop_app_all : forall c x y, all_in c x = true -> span_drop c (x ++ y) = span_drop c y.
Proof.
  induction x as [|a x IH]; intros y H; cbn [all_in] in H; simpl; auto.
  apply andb_prop in H as [H1 H2]; rewrite H1; auto.
Qed.

Lemma span_drop_stop : forall c a t, in_cls c a = false -> span_drop c (String a t) = String a t.
Proof. intros c a t H; simpl; rewrite H; auto. Qed.

Lemma span_drop_nonstart : forall c s,
  match s with String a _ => in_cls c a = false | EmptyString => True end ->
  span_drop c s = s.
Proof. intros c [|a t] H; simpl; auto; rewrite H; auto. Qed.

Lemma remove_commas_app : forall x y, remove_commas (x ++ y) = remove_commas x ++ remove_commas y.
Proof.
  induction x as [|a x IH]; intro y; simpl; auto.
  destruct (Ascii.eqb a ","%char); simpl; f_equal; auto.
Qed.

Lemma remove_commas_digits : forall s, all_in digit_cls s = true -> remove_commas s = s.
Proof.
  induction s as [|a t IH]; intro H; cbn [all_in] in H; simpl; auto.
  apply andb_prop in H as [H1 H2]; rewrite digit_cls_is_digit in H1.
  rewrite (digit_not_comma _ H1); f_equal; auto.
Qed.

Lemma remove_commas_num : forall s, all_in num_cls s = true -> all_in digit_cls (remove_commas s) = true.
Proof.
  induction s as [|a t IH]; intro H; cbn [all_in] in H; simpl; auto.
  apply andb_prop in H as [H1 H2].
  destruct (num_digit_or_comma a H1) as [D|D].
  - rewrite (digit_not_comma _ D); cbn [all_in]; rewrite digit_cls_is_digit, D; auto.
  - subst a; simpl; auto.
Qed.

Lemma remove_commas_frac : forall fp, all_in digit_cls fp = true -> remove_commas (frac_str fp) = frac_str fp.
Proof.
  intros [|a t] H; simpl; auto.
  f_equal; apply (remove_commas_digits (String a t)); exact H.
Qed.

Lemma all_in_app : forall c x y, all_in c (x ++ y) = all_in c x && all_in c y.
Proof. induction x as [|a x IH]; intro y; simpl; auto; rewrite IH, andb_assoc; auto. Qed.

(** ** The matcher on [label_number] *)

Lemma star_try_greedy : forall c s cap k x,
  k (span_drop c s) cap = Some x -> star_try c s cap k = Some x.
Proof.
  intros c s; induction s as [|a t IH]; intros cap k x H; simpl in *; auto.
  destruct (in_cls c a); auto.
  rewrite (IH _ _ _ H); auto.
Qed.

Lemma star_try_stop : forall c s cap k,
  (forall a t, in_cls c a = true -> k (String a t) cap = None) ->
  star_try c s cap k = k (span_drop c s) cap.
Proof.
  intros c s; induction s as [|a t IH]; intros cap k H; simpl; auto.
  destruct (in_cls c a) eqn:E; auto.
  rewrite IH by auto.
  destruct (k (span_drop c t) cap); auto.
Qed.

Lemma mt_alts : forall ls l s cap k, mt (alts l ls) s cap k = alt_try (l :: ls) s cap k.
Proof.
  induction ls as [|l' ls IH]; intros l s cap k; simpl.
  - destruct (strip_prefix l s); auto; destruct (k s0 cap); auto.
  - rewrite IH; simpl; auto.
Qed.

Lemma alt_try_ext : forall labs s cap k k',
  (forall s' c', k s' c' = k' s' c') -> alt_try labs s cap k = alt_try labs s cap k'.
Proof.
  induction labs as [|lab labs IH]; intros s cap k k' E; simpl; auto.
  destruct (strip_prefix lab s); rewrite ?E; erewrite IH; eauto.
Qed.

Lemma alt_try_some : forall labs s cap k x,
  alt_try labs s cap k = Some x ->
  exists lab s1, In lab labs /\ strip_prefix lab s = Some s1 /\ k s1 cap = Some x.
Proof.
  induction labs as [|lab labs IH]; intros s cap k x H; simpl in H; [discriminate|].
  destruct (strip_prefix lab s) as [s1|] eqn:P.
  - destruct (k s1 cap) eqn:K.
    + inversion H; subst; exists lab, s1; simpl; auto.
    + destruct (IH _ _ _ _ H) as (lab' & s1' & ? & ? & ?); exists lab', s1'; simpl; auto.
  - destruct (IH _ _ _ _ H) as (lab' & s1' & ? & ? & ?); exists lab', s1'; simpl; auto.
Qed.

(** When every label that matches leaves the same rest [s1], the
    alternation behaves as that one label. *)
Lemma alt_try_none_or : forall labs s cap k s1,
  (forall lab s', In lab labs -> strip_prefix lab s = Some s' -> s' = s1) ->
  alt_try labs s cap k = None \/ alt_try labs s cap k = k s1 cap.
Proof.
  induction labs as [|lab labs IH]; intros s cap k s1 H; simpl; auto.
  destruct (strip_prefix lab s) as [s'|] eqn:P.
  - rewrite (H lab s') by (simpl; auto).
    destruct (k s1 cap) eqn:K; auto.
    destruct (IH s cap k s1) as [X|X]; [intros; eapply H; simpl; eauto | auto | ].
    rewrite X, K; auto.
  - apply IH; intros; eapply H; simpl; eauto.
Qed.

Lemma alt_try_unique : forall labs lab s cap k s1,
  In lab labs -> strip_prefix lab s = Some s1 ->
  (forall lab' s', In lab' labs -> strip_prefix lab' s = Some s' -> s' = s1) ->
  alt_try labs s cap k = k s1 cap.
Proof.
  intros labs lab s cap k s1 I P U.
  destruct (alt_try_none_or labs s cap k s1 U) as [N|E]; auto.
  rewrite N; symmetry.
  destruct (k s1 cap) as [x|] eqn:K; auto.
  exfalso; clear U.
  revert N; induction labs as [|l0 labs IH]; simpl in *; [contradiction|].
  destruct I as [<-|I].
  - rewrite P, K; discriminate.
  - destruct (match strip_prefix l0 s with Some s2 => k s2 cap | None => None end); [discriminate|].
    auto.
Qed.

Lemma mt_dot_digits : forall s3 cap k,
  mt (RSeq (RLit ".") (RPlus digit_cls)) s3 cap k =
  match s3 with
  | String p (String d u) =>
      if Ascii.eqb "."%char p && is_digit d then star_try digit_cls u cap k else None
  | _ => None
  end.
Proof.
  intros s3 cap k.
  destruct s3 as [|p [|d u]]; cbn [mt strip_prefix]; auto;
    destruct (Ascii.eqb "."%char p); cbn [strip_prefix andb]; auto.
  rewrite digit_cls_is_digit; auto.
Qed.

(** [(?:\.[0-9]+)?] under a continuation that never fails. *)
Lemma mt_frac : forall s3 cap k,
  (forall s c, exists y, k s c = Some y) ->
  mt (ROpt (RSeq (RLit ".") (RPlus digit_cls))) s3 cap k = k (frac_rest s3) cap.
Proof.
  intros s3 cap k Hk.
  change (match mt (RSeq (RLit ".") (RPlus digit_cls)) s3 cap k with
          | Some x => Some x | None => k s3 cap end = k (frac_rest s3) cap).
  rewrite mt_dot_digits.
  unfold frac_rest.
  destruct s3 as [|p [|d u]]; try (destruct (k _ cap); auto; fail).
  destruct (Ascii.eqb "."%char p && is_digit d).
  - destruct (Hk (span_drop digit_cls u) cap) as [y Y].
    rewrite (star_try_greedy _ _ _ _ _ Y); auto.
  - destruct (k _ cap); auto.
Qed.

Lemma mt_seq : forall r1 r2 s cap k,
  mt (RSeq r1 r2) s cap k = mt r1 s cap (fun s' cap' => mt r2 s' cap' k).
Proof. reflexivity. Qed.

Lemma mt_group : forall r s cap k,
  mt (RGroup r) s cap k = mt r s cap (fun s' _ => k s' (Some (str_take (String.length s - String.length s') s))).
Proof. reflexivity. Qed.

Lemma mt_plus : forall c a t cap k,
  mt (RPlus c) (String a t) cap k = if in_cls c a then star_try c t cap k else None.
Proof. reflexivity. Qed.

Lemma mt_group_num : forall a t cap,
  in_cls num_cls a = true ->
  mt (RGroup (RSeq (RPlus num_cls) (ROpt (RSeq (RLit ".") (RPlus digit_cls)))))
     (String a t) cap (fun s' c => Some (s', c))
  = let r := frac_rest (span_drop num_cls t) in
    Some (r, Some (str_take (String.length (String a t) - String.length r) (String a t))).
Proof.
  intros a t cap A.
  rewrite mt_group, mt_seq, mt_plus, A.
  apply star_try_greedy.
  rewrite mt_frac; auto.
  intros; eexists; reflexivity.
Qed.

Lemma mt_group_num_fail : forall a t cap,
  in_cls num_cls a = false ->
  mt (RGroup (RSeq (RPlus num_cls) (ROpt (RSeq (RLit ".") (RPlus digit_cls)))))
     (String a t) cap (fun s' c => Some (s', c)) = None.
Proof. intros a t cap A; rewrite mt_group, mt_seq, mt_plus, A; auto. Qed.

Lemma match_at_label_number : forall l ls s,
  match_at (label_number l ls) s = alt_try (l :: ls) s None (fun s1 _ => number_after s1).
Proof.
  intros l ls s; unfold match_at, label_number.
  rewrite mt_seq, mt_alts; apply alt_try_ext; intros s1 c1.
  rewrite mt_seq; change (mt (RStar sep_cls) s1 c1) with (star_try sep_cls s1 c1).
  rewrite star_try_stop.
  - unfold number_after.
    destruct (span_drop sep_cls s1) as [|a t]; [reflexivity|].
    destruct (in_cls num_cls a) eqn:A.
    + apply (mt_group_num a t c1 A).
    + apply (mt_group_num_fail a t c1 A).
  - intros a t S; apply mt_group_num_fail, sep_not_num, S.
Qed.

Lemma frac_split : forall s3, s3 = frac_take s3 ++ frac_rest s3.
Proof.
  intros [|p [|d u]]; unfold frac_take, frac_rest; auto.
  destruct (Ascii.eqb "."%char p) eqn:P, (is_digit d); cbn [andb]; auto.
  apply Ascii.eqb_eq in P; subst p; cbn -[span_take span_drop]; do 2 f_equal; apply span_split.
Qed.

Lemma number_after_shape : forall s1 rest cap,
  number_after s1 = Some (rest, cap) ->
  exists sep a t, s1 = sep ++ String a t /\ all_in sep_cls sep = true /\ in_cls num_cls a = true
    /\ cap = Some (String a (span_take num_cls t ++ frac_take (span_drop num_cls t))).
Proof.
  intros s1 rest cap H; unfold number_after in H.
  destruct (span_drop sep_cls s1) as [|a t] eqn:D; [discriminate|].
  destruct (in_cls num_cls a) eqn:A; [|discriminate].
  assert (E : String a t = String a (span_take num_cls t ++ frac_take (span_drop num_cls t))
                           ++ frac_rest (span_drop num_cls t)).
  { simpl; f_equal; rewrite str_app_assoc, <- frac_split; apply span_split. }
  cbv zeta in H; rewrite (str_take_split _ _ _ E) in H.
  injection H; intros <- <-.
  exists (span_take sep_cls s1), a, t; repeat split; auto.
  - rewrite <- D; apply span_split.
  - apply all_in_span_take.
Qed.

Lemma num_not_sep : forall a, in_cls num_cls a = true -> in_cls sep_cls a = false.
Proof.
  intros a H; destruct (in_cls sep_cls a) eqn:S; auto.
  rewrite (sep_not_num a S) in H; discriminate.
Qed.

(** Every match of a [label_number] pattern is a label, separators, and a
    digit or comma. *)
Lemma label_number_match_shape : forall l ls s x,
  match_at (label_number l ls) s = Some x ->
  exists lab sep c post, In lab (l :: ls) /\ all_in sep_cls sep = true
    /\ in_cls num_cls c = true /\ s = lab ++ sep ++ String c post.
Proof.
  intros l ls s x H; rewrite match_at_label_number in H.
  apply alt_try_some in H as (lab & s1 & I & P & N).
  destruct x as [rest cap].
  apply number_after_shape in N as (sep & a & t & E & S & A & _).
  exists lab, sep, a, t; repeat split; auto.
  apply strip_prefix_some in P; subst; auto.
Qed.

(** A well-formed number token after the separators is captured whole. *)
Lemma number_after_token : forall sep d ipt fp post,
  all_in sep_cls sep = true -> is_digit d = true -> all_in num_cls ipt = true ->
  all_in digit_cls fp = true -> number_ends fp post = true ->
  number_after (sep ++ String d (ipt ++ frac_str fp ++ post))
  = Some (post, Some (String d ipt ++ frac_str fp)).
Proof.
  intros sep d ipt fp post S D I F N.
  assert (R : frac_rest (span_drop num_cls (ipt ++ frac_str fp ++ post)) = post).
  { rewrite span_drop_app_all by exact I.
    destruct fp as [|g u]; simpl frac_str.
    - cbn [String.append]; destruct post as [|a [|b v]]; auto; cbn [number_ends] in N.
      + apply andb_prop in N as [N _]; apply negb_true_iff in N.
        rewrite span_drop_stop by exact N; reflexivity.
      + apply andb_prop in N as [N1 N2]; apply negb_true_iff in N1, N2.
        rewrite span_drop_stop by exact N1; unfold frac_rest; rewrite N2; reflexivity.
    - cbn [String.append]; rewrite span_drop_stop by reflexivity.
      unfold frac_rest.
      cbn [all_in] in F; apply andb_prop in F as [F1 F2].
      rewrite digit_cls_is_digit in F1; rewrite F1; cbn [andb Ascii.eqb].
      replace (Ascii.eqb "."%char "."%char) with true by reflexivity; cbn [andb].
      rewrite span_drop_app_all by exact F2.
      apply span_drop_nonstart.
      destruct post as [|a v]; auto; cbn [number_ends] in N.
      rewrite digit_cls_is_digit; apply negb_true_iff; exact N. }
  unfold number_after.
  rewrite span_drop_app_all by exact S.
  rewrite span_drop_stop by (apply num_not_sep, digit_num, D).
  rewrite (digit_num d D); cbv zeta; rewrite R.
  do 3 f_equal; apply str_take_split.
  simpl; f_equal; rewrite str_app_assoc; auto.
Qed.

(** ** [float] on digit strings *)

Lemma frac_part_digits : forall G m e nd, all_in digit_cls G = true ->
  frac_part G m e nd = Some (digits_from G m, e + String.length G, nd + String.length G).
Proof.
  induction G as [|g u IH]; intros m e nd H; simpl.
  - repeat rewrite Nat.add_0_r; reflexivity.
  - cbn [all_in] in H; apply andb_prop in H as [H1 H2].
    rewrite digit_cls_is_digit in H1; rewrite H1, IH by exact H2.
    repeat rewrite Nat.add_succ_r; reflexivity.
Qed.

Lemma int_part_digits : forall D r m nd, all_in digit_cls D = true ->
  int_part (D ++ r) m nd = int_part r (digits_from D m) (nd + String.length D).
Proof.
  induction D as [|g u IH]; intros r m nd H; simpl.
  - rewrite Nat.add_0_r; reflexivity.
  - cbn [all_in] in H; apply andb_prop in H as [H1 H2].
    rewrite digit_cls_is_digit in H1; rewrite H1, IH by exact H2.
    rewrite Nat.add_succ_r; reflexivity.
Qed.

Lemma py_float_digits : forall D G,
  all_in digit_cls D = true -> all_in digit_cls G = true ->
  py_float (D ++ frac_str G)
  = if Nat.eqb (String.length D + String.length G) 0 then None
    else Some (Qmake (digits_from G (digits_from D 0%Z)) (pow10 (String.length G))).
Proof.
  intros D G HD HG; unfold py_float.
  rewrite int_part_digits by exact HD.
  destruct G as [|g u]; simpl frac_str.
  - cbn [int_part]; simpl; rewrite Nat.add_0_r; reflexivity.
  - cbn [int_part].
    replace (is_digit "."%char) with false by reflexivity.
    replace (Ascii.eqb "."%char "."%char) with true by reflexivity.
    rewrite frac_part_digits by exact HG.
    simpl String.length; rewrite !Nat.add_0_l.
    replace (Nat.eqb (String.length D + S (String.length u)) 0) with false
      by (symmetry; apply Nat.eqb_neq; lia).
    reflexivity.
Qed.

Lemma digits_from_app : forall x y m, digits_from (x ++ y) m = digits_from y (digits_from x m).
Proof. induction x as [|a x IH]; intros y m; simpl; auto. Qed.

(** ** Labels, positions and the leftmost match *)

Lemma heads_distinct_strip : forall labs lab lab' s s1 s1',
  heads_distinct labs = true -> In lab labs -> In lab' labs ->
  strip_prefix lab s = Some s1 -> strip_prefix lab' s = Some s1' -> s1' = s1.
Proof.
  intros labs lab lab' s s1 s1' H I I' P P'.
  unfold heads_distinct in H; apply andb_prop in H as [NE D].
  rewrite forallb_forall in NE, D.
  specialize (D lab' I'); rewrite forallb_forall in D; specialize (D lab I).
  assert (E : lab' = lab).
  { apply strip_prefix_some in P, P'.
    pose proof (NE lab I) as N1; pose proof (NE lab' I') as N2.
    destruct lab as [|x u]; [simpl in N1; discriminate|].
    destruct lab' as [|y v]; [simpl in N2; discriminate|].
    simpl in P, P'; subst s; injection P'; intros _ Hxy; subst y.
    simpl in D; rewrite Ascii.eqb_refl in D; simpl in D.
    apply String.eqb_eq in D; subst; auto. }
  subst lab'; congruence.
Qed.

Lemma label_number_here_spec : forall labs lab sep c post,
  In lab labs -> all_in sep_cls sep = true -> in_cls num_cls c = true ->
  label_number_here labs (lab ++ sep ++ String c post) = true.
Proof.
  intros labs lab sep c post I S C.
  unfold label_number_here; apply existsb_exists; exists lab; split; auto.
  rewrite strip_prefix_app, span_drop_app_all by exact S.
  rewrite span_drop_stop by (apply num_not_sep, C); exact C.
Qed.

(** The checker [label_number_in] is sound: when it answers [false], no
    position before [n] holds a label followed by separators and a digit or
    comma. *)
Lemma label_number_in_false : forall n labs s,
  label_number_in n labs s = false ->
  forall pre lab sep c post, In lab labs -> all_in sep_cls sep = true -> in_cls num_cls c = true ->
    String.length pre < n -> s <> pre ++ lab ++ sep ++ String c post.
Proof.
  induction n as [|n IH]; intros labs s H pre lab sep c post I S C L E; [lia|].
  simpl in H; apply orb_false_iff in H as [H1 H2].
  destruct pre as [|a p].
  - simpl in E; subst s.
    rewrite (label_number_here_spec labs lab sep c post I S C) in H1; discriminate.
  - simpl in E; subst s; simpl in L.
    apply (IH labs (p ++ lab ++ sep ++ String c post) H2 p lab sep c post I S C); auto; lia.
Qed.

Lemma findall_head : forall fuel r s, String.length s < fuel ->
  hd_error (findall_from fuel r s) = first_match r s.
Proof.
  induction fuel as [|f IH]; intros r s L; [lia|].
  destruct s as [|a t]; simpl; destruct (match_at r _) as [[rest cap]|]; auto.
  apply IH; simpl in L; lia.
Qed.

Lemma first_match_at : forall r s rest c,
  match_at r s = Some (rest, Some c) -> first_match r s = Some c.
Proof. intros r [|a t] rest c H; simpl; rewrite H; auto. Qed.

Lemma first_match_skip : forall r pre s,
  (forall pre' s', pre ++ s = pre' ++ s' -> String.length pre' < String.length pre ->
                   match_at r s' = None) ->
  first_match r (pre ++ s) = first_match r s.
Proof.
  intros r pre; induction pre as [|a p IH]; intros s H; auto.
  simpl; rewrite (H EmptyString (String a (p ++ s))) by (simpl; auto; lia).
  apply IH; intros pre' s' E L.
  apply (H (String a pre') s'); simpl; [f_equal; auto | lia].
Qed.

Lemma first_match_some : forall r s c,
  first_match r s = Some c -> exists pre s' x, s = pre ++ s' /\ match_at r s' = Some x.
Proof.
  intros r s; induction s as [|a t IH]; intros c H; simpl in H.
  - destruct (match_at r EmptyString) as [x|] eqn:M; [|discriminate].
    exists EmptyString, EmptyString, x; auto.
  - destruct (match_at r (String a t)) as [x|] eqn:M.
    + exists EmptyString, (String a t), x; auto.
    + destruct (IH c H) as (pre & s' & x & E & M'); exists (String a pre), s', x; subst; auto.
Qed.

(** ** The metric table *)

Lemma dict_get_set : forall {V} k k' (v : V) d,
  dict_get k (dict_set k' v d) = if String.eqb k k' then Some v else dict_get k d.
Proof.
  intros V k k' v d; induction d as [|[k0 v0] d IH]; simpl.
  - destruct (String.eqb k k'); auto.
  - destruct (String.eqb k' k0) eqn:E; simpl.
    + apply String.eqb_eq in E; subst k0; destruct (String.eqb k k'); auto.
    + rewrite IH; destruct (String.eqb k k0) eqn:E2; auto.
      apply String.eqb_eq in E2; subst k0.
      destruct (String.eqb k k') eqn:E3; auto.
      apply String.eqb_eq in E3; subst k'; rewrite String.eqb_refl in E; discriminate.
Qed.

Lemma metric_step_get : forall low d m pat k,
  dict_get k (metric_step low d (m, pat)) =
  if String.eqb k m then
    match re_findall pat low with [] => dict_get k d | m0 :: _ => Some (clean_value m0) end
  else dict_get k d.
Proof.
  intros low d m pat k; unfold metric_step.
  destruct (re_findall pat low); [destruct (String.eqb k m); auto|].
  apply dict_get_set.
Qed.

Lemma fold_metric_get_absent : forall low ps d k,
  ~ In k (map fst ps) -> dict_get k (fold_left (metric_step low) ps d) = dict_get k d.
Proof.
  intros low ps; induction ps as [|[m pat] ps IH]; intros d k N; cbn [fold_left]; auto.
  simpl in N; rewrite IH by tauto.
  rewrite metric_step_get.
  destruct (String.eqb k m) eqn:E; auto.
  apply String.eqb_eq in E; subst; tauto.
Qed.

Lemma fold_metric_get : forall low ps d m pat,
  NoDup (map fst ps) -> In (m, pat) ps ->
  dict_get m (fold_left (metric_step low) ps d) =
  match re_findall pat low with [] => dict_get m d | m0 :: _ => Some (clean_value m0) end.
Proof.
  intros low ps; induction ps as [|[m' pat'] ps IH]; intros d m pat ND I; [contradiction|].
  cbn [fold_left map fst In] in *; inversion ND as [|? ? N ND']; subst.
  destruct I as [E|I].
  - injection E; intros <- <-.
    rewrite fold_metric_get_absent by exact N.
    rewrite metric_step_get, String.eqb_refl; auto.
  - rewrite (IH _ m pat ND' I).
    assert (M : m <> m') by (intro; subst; apply N; apply (in_map fst _ _ I)).
    rewrite metric_step_get.
    apply String.eqb_neq in M; rewrite M; auto.
Qed.

Lemma patterns_names_nodup : NoDup (map fst patterns).
Proof. simpl; repeat constructor; simpl; intuition discriminate. Qed.

(** The value of a metric is the cleaned group of the leftmost match of its
    pattern in the lower-cased text, and the key is absent without a match. *)
Lemma metric_lookup : forall text m pat,
  In (m, pat) patterns ->
  dict_get m (extract_financial_metrics text) = option_map clean_value (first_match pat (py_lower text)).
Proof.
  intros text m pat I; unfold extract_financial_metrics.
  rewrite (fold_metric_get _ _ _ m pat patterns_names_nodup I).
  rewrite <- findall_head with (fuel := S (String.length (py_lower text))) by lia.
  unfold re_findall; destruct (findall_from _ pat _); auto.
Qed.

Lemma alts_inj : forall ls l ls' l', alts l ls = alts l' ls' -> l = l' /\ ls = ls'.
Proof.
  induction ls as [|a ls IH]; intros l ls' l' E; destruct ls' as [|a' ls']; simpl in E;
    try discriminate.
  - injection E; auto.
  - injection E; intros E2 <-; destruct (IH _ _ _ E2) as [<- <-]; auto.
Qed.

Lemma label_number_inj : forall l ls l' ls',
  label_number l ls = label_number l' ls' -> l = l' /\ ls = ls'.
Proof. unfold label_number; intros l ls l' ls' E; injection E as E'; apply alts_inj, E'. Qed.

Lemma patterns_heads : forall m l ls,
  In (m, label_number l ls) patterns -> heads_distinct (l :: ls) = true.
Proof.
  intros m l ls I; unfold patterns in I; simpl in I.
  repeat destruct I as [I|I]; try contradiction;
    apply (f_equal snd) in I; cbn [snd] in I;
    apply label_number_inj in I as [<- <-]; reflexivity.
Qed.

Lemma label_number_nowhere : forall labs s,
  label_number_in (S (String.length s)) labs s = false ->
  forall pre lab sep c post, In lab labs -> all_in sep_cls sep = true -> in_cls num_cls c = true ->
    s <> pre ++ lab ++ sep ++ String c post.
Proof.
  intros labs s H pre lab sep c post I S C E.
  apply (label_number_in_false _ labs s H pre lab sep c post I S C); auto.
  rewrite E, str_length_app; lia.
Qed.

Lemma frac_take_shape : forall y, exists G, frac_take y = frac_str G /\ all_in digit_cls G = true.
Proof.
  intros [|p [|d u]]; try (exists EmptyString; auto; fail).
  unfold frac_take.
  destruct (Ascii.eqb "."%char p && is_digit d) eqn:E; [|exists EmptyString; auto].
  exists (String d (span_take digit_cls u)); split; auto.
  apply andb_prop in E as [_ E]; cbn [all_in]; rewrite digit_cls_is_digit, E.
  apply all_in_span_take.
Qed.

Lemma first_match_group : forall r s c,
  first_match r s = Some c ->
  exists pre s' rest cap, s = pre ++ s' /\ match_at r s' = Some (rest, cap)
    /\ c = match cap with Some g => g | None => EmptyString end.
Proof.
  intros r s; induction s as [|a t IH]; intros c H; simpl in H.
  - destruct (match_at r EmptyString) as [[rest cap]|] eqn:M; [|discriminate].
    injection H; intros <-; exists EmptyString, EmptyString, rest, cap; auto.
  - destruct (match_at r (String a t)) as [[rest cap]|] eqn:M.
    + injection H; intros <-; exists EmptyString, (String a t), rest, cap; auto.
    + destruct (IH c H) as (pre & s' & rest & cap & E & M' & C).
      exists (String a pre), s', rest, cap; subst; auto.
Qed.

(** A captured token, with its commas removed, is digits, then possibly a
    '.' and more digits. *)
Lemma capture_digits : forall l ls s c,
  first_match (label_number l ls) s = Some c ->
  exists D G, remove_commas c = D ++ frac_str G
    /\ all_in digit_cls D = true /\ all_in digit_cls G = true.
Proof.
  intros l ls s c H.
  destruct (first_match_group _ _ _ H) as (pre & s' & rest & cap & _ & M & C).
  rewrite match_at_label_number in M.
  apply alt_try_some in M as (lab & s1 & _ & _ & N).
  apply number_after_shape in N as (sep & a & t & _ & _ & A & Cap); subst cap c.
  destruct (frac_take_shape (span_drop num_cls t)) as (G & FG & HG).
  exists (remove_commas (String a (span_take num_cls t))), G; repeat split; auto.
  - rewrite FG.
    change (String a (span_take num_cls t ++ frac_str G))
      with (String a (span_take num_cls t) ++ frac_str G).
    rewrite remove_commas_app, (remove_commas_frac G HG); reflexivity.
  - apply remove_commas_num; cbn [all_in]; rewrite A, all_in_span_take; auto.
Qed.

(** ** Metric extraction: the claims *)

(** C1 (amended). On "Net income was $45,000 and total assets of 2,000,000"
    no metric is extracted: each label is followed by a word ("was", "of"),
    not by separators and a number, so the result is the empty mapping. *)
Theorem net_income_scenario_empty :
  extract_financial_metrics "Net income was $45,000 and total assets of 2,000,000" = [].
Proof. vm_compute; reflexivity. Qed.

(** C1 (counterexample). On that text neither profit nor assets is present. *)
Lemma net_income_scenario_no_profit_assets :
  dict_get "profit" (extract_financial_metrics "Net income was $45,000 and total assets of 2,000,000") = None
  /\ dict_get "assets" (extract_financial_metrics "Net income was $45,000 and total assets of 2,000,000") = None.
Proof. split; vm_compute; reflexivity. Qed.

(** C4 (amended). When the first match of a metric's pattern captures a token
    whose comma-stripped form does not parse as a float, the metric is kept,
    without error, with the comma-stripped string as its value (not the raw
    token); this only happens when the token is commas alone, so the stored
    string is empty. *)
Theorem unparsed_token_kept_stripped : forall text m l ls c cs,
  In (m, label_number l ls) patterns ->
  re_findall (label_number l ls) (py_lower text) = c :: cs ->
  py_float (remove_commas c) = None ->
  dict_get m (extract_financial_metrics text) = Some (VStr (remove_commas c))
  /\ remove_commas c = EmptyString.
Proof.
  intros text m l ls c cs I F P.
  assert (FM : first_match (label_number l ls) (py_lower text) = Some c).
  { rewrite <- (findall_head (S (String.length (py_lower text)))) by lia.
    unfold re_findall in F; rewrite F; reflexivity. }
  split.
  - rewrite (metric_lookup text m _ I), FM; simpl.
    unfold clean_value; rewrite P; reflexivity.
  - destruct (capture_digits _ _ _ _ FM) as (D & G & E & HD & HG).
    rewrite E in P |- *; rewrite (py_float_digits D G HD HG) in P.
    destruct (Nat.eqb (String.length D + String.length G) 0) eqn:Z; [|discriminate].
    apply Nat.eqb_eq in Z.
    destruct D; [|simpl in Z; lia]; destruct G; [|simpl in Z; lia]; reflexivity.
Qed.

Lemma unparsed_token_kept_stripped_witness :
  dict_get "expenses" (extract_financial_metrics "costs: ,, in total") = Some (VStr EmptyString)
  /\ remove_commas ",," = EmptyString.
Proof.
  apply (unparsed_token_kept_stripped "costs: ,, in total" "expenses" "expenses" ["costs"] ",," []).
  - simpl; auto.
  - vm_compute; reflexivity.
  - vm_compute; reflexivity.
Defined.

(** C4 (counterexample). For "costs: ,," the captured token is ",,", which
    does not parse, but the stored value is the empty string, not the raw ",,". *)
Lemma comma_token_not_verbatim :
  re_findall (label_number "expenses" ["costs"]) (py_lower "costs: ,,") = [",,"]
  /\ py_float (remove_commas ",,") = None
  /\ dict_get "expenses" (extract_financial_metrics "costs: ,,") = Some (VStr EmptyString)
  /\ VStr EmptyString <> VStr ",,".
Proof. repeat split; [vm_compute; reflexivity .. | discriminate]. Qed.

(** C5. The value of a metric is the figure captured by the leftmost match of
    its pattern: given a match at the end of [pre] and no match at any
    earlier position, the value is the cleaned capture of that match;
    later matches play no part. *)
Theorem leftmost_match_wins : forall text m pat pre s rest c,
  In (m, pat) patterns ->
  py_lower text = pre ++ s ->
  match_at pat s = Some (rest, Some c) ->
  (forall pre' s', py_lower text = pre' ++ s' -> String.length pre' < String.length pre ->
     match_at pat s' = None) ->
  dict_get m (extract_financial_metrics text) = Some (clean_value c).
Proof.
  intros text m pat pre s rest c I E M N.
  rewrite (metric_lookup text m pat I), E, first_match_skip.
  - rewrite (first_match_at _ _ _ _ M); reflexivity.
  - intros pre' s' E'; apply N; rewrite E; exact E'.
Qed.

Lemma leftmost_match_wins_witness :
  dict_get "revenue" (extract_financial_metrics "revenue: 100 ... revenue: 200") = Some (VFloat (100 # 1)).
Proof.
  rewrite (leftmost_match_wins "revenue: 100 ... revenue: 200" "revenue"
             (label_number "revenue" ["sales"; "income"]) EmptyString "revenue: 100 ... revenue: 200"
             " ... revenue: 200" "100").
  - vm_compute; reflexivity.
  - simpl; auto.
  - reflexivity.
  - vm_compute; reflexivity.
  - intros pre' s' _ L; simpl in L; lia.
Defined.

(** C6 (amended). When the lower-cased text has, after [pre], a synonym of a
    metric, separators ([\s], ':' or '$') and a well-formed number (a digit,
    digits and commas, then optionally '.' and digits, not continued by
    [post]), and no synonym of that metric followed by separators and a
    digit or comma starts earlier, the value is that number with its commas
    removed, exactly. *)
Theorem leftmost_number_value : forall text m l ls pre lab sep d ipt fp post,
  In (m, label_number l ls) patterns -> In lab (l :: ls) ->
  all_in sep_cls sep = true -> is_digit d = true -> all_in num_cls ipt = true ->
  all_in digit_cls fp = true -> number_ends fp post = true ->
  py_lower text = pre ++ lab ++ sep ++ String d ipt ++ frac_str fp ++ post ->
  (forall pre' lab' sep' c post', In lab' (l :: ls) -> all_in sep_cls sep' = true ->
     in_cls num_cls c = true -> String.length pre' < String.length pre ->
     py_lower text <> pre' ++ lab' ++ sep' ++ String c post') ->
  dict_get m (extract_financial_metrics text) =
    Some (VFloat (Qmake (digits_value (remove_commas (String d ipt) ++ fp)) (pow10 (String.length fp)))).
Proof.
  intros text m l ls pre lab sep d ipt fp post I IL S D IP F N E Early.
  rewrite (metric_lookup text m _ I), E, first_match_skip.
  - assert (M : match_at (label_number l ls) (lab ++ sep ++ String d ipt ++ frac_str fp ++ post)
                = Some (post, Some (String d ipt ++ frac_str fp))).
    { rewrite match_at_label_number.
      rewrite (alt_try_unique (l :: ls) lab _ None _ (sep ++ String d ipt ++ frac_str fp ++ post) IL).
      - apply number_after_token; auto.
      - apply strip_prefix_app.
      - intros lab' s' I' P'.
        eapply heads_distinct_strip;
          [exact (patterns_heads m l ls I) | exact IL | exact I' | apply strip_prefix_app | exact P']. }
    rewrite (first_match_at _ _ _ _ M); cbn [option_map].
    assert (R : remove_commas (String d ipt ++ frac_str fp) = remove_commas (String d ipt) ++ frac_str fp).
    { rewrite remove_commas_app, (remove_commas_frac fp F); reflexivity. }
    assert (HF : all_in digit_cls (remove_commas (String d ipt)) = true).
    { apply remove_commas_num; cbn [all_in]; rewrite (digit_num d D); exact IP. }
    assert (RD : remove_commas (String d ipt) = String d (remove_commas ipt)).
    { cbn [remove_commas]; rewrite (digit_not_comma d D); reflexivity. }
    unfold clean_value; rewrite R, (py_float_digits _ _ HF F), RD.
    replace (Nat.eqb (String.length (String d (remove_commas ipt)) + String.length fp) 0)
      with false by (symmetry; apply Nat.eqb_neq; simpl; lia).
    unfold digits_value; rewrite digits_from_app; reflexivity.
  - intros pre' s' E' L.
    destruct (match_at (label_number l ls) s') as [x|] eqn:Mx; [|reflexivity].
    destruct (label_number_match_shape _ _ _ _ Mx) as (lab' & sep' & c & post' & I' & S' & C' & Es).
    exfalso; apply (Early pre' lab' sep' c post' I' S' C' L).
    rewrite E, E', Es; reflexivity.
Qed.

Lemma leftmost_number_value_witness :
  dict_get "revenue" (extract_financial_metrics "Total Revenue: $1,234,567.89")
  = Some (VFloat (123456789 # 100)).
Proof.
  rewrite (leftmost_number_value "Total Revenue: $1,234,567.89" "revenue" "revenue" ["sales"; "income"]
             "total " "revenue" ": $" "1"%char ",234,567" "89" EmptyString).
  all: first
    [ solve [vm_compute; reflexivity]
    | solve [simpl; auto]
    | intros pre' lab' sep' c post' I' S' C' L;
      apply (label_number_in_false 6 ["revenue"; "sales"; "income"]); auto;
      vm_compute; reflexivity ].
Defined.

(** C6 (counterexample). An earlier figure for the same metric wins: the
    text contains "Total Revenue: $1,234,567.89" but revenue is 5. *)
Lemma earlier_figure_shadows_number :
  dict_get "revenue" (extract_financial_metrics "Revenue: 5. Total Revenue: $1,234,567.89")
  = Some (VFloat (5 # 1)).
Proof. vm_compute; reflexivity. Qed.

(** C7. If no synonym of a metric, followed by separators and a digit or
    comma, occurs anywhere in the lower-cased text, the metric's key is
    absent from the result. *)
Theorem absent_without_label_number : forall text m l ls,
  In (m, label_number l ls) patterns ->
  (forall pre lab sep c post, In lab (l :: ls) -> all_in sep_cls sep = true ->
     in_cls num_cls c = true -> py_lower text <> pre ++ lab ++ sep ++ String c post) ->
  dict_get m (extract_financial_metrics text) = None.
Proof.
  intros text m l ls I N.
  rewrite (metric_lookup text m _ I).
  destruct (first_match (label_number l ls) (py_lower text)) as [c|] eqn:FM; [|reflexivity].
  exfalso.
  destruct (first_match_some _ _ _ FM) as (pre & s' & x & E & M).
  destruct (label_number_match_shape _ _ _ _ M) as (lab & sep & c' & post & IL & S & C & Es).
  apply (N pre lab sep c' post IL S C); rewrite E, Es; reflexivity.
Qed.

Lemma absent_without_label_number_witness :
  dict_get "revenue" (extract_financial_metrics "Revenue grew strongly; net profit: 12") = None.
Proof.
  apply (absent_without_label_number _ "revenue" "revenue" ["sales"; "income"]).
  - simpl; auto.
  - apply label_number_nowhere; vm_compute; reflexivity.
Defined.

(** ** Document processing *)

Lemma pdf_pages_text_err : forall {doc page} `{PdfLib doc page} pre p post e acc,
  Forall (fun q => exists t, extract_text q = Ok t) pre -> extract_text p = Err e ->
  pdf_pages_text ((pre ++ p :: post)%list) acc = Err e.
Proof.
  intros doc page L pre; induction pre as [|q pre IH]; intros p post e acc F X; simpl.
  - rewrite X; reflexivity.
  - inversion F as [|? ? [t T] F']; subst. rewrite T. apply IH; auto.
Qed.

Lemma dict_set_fresh : forall {V} k (v : V) d,
  ~ In k (map fst d) -> dict_set k v d = app d [(k, v)].
Proof.
  intros V k v d; induction d as [|[k' v'] d IH]; intro N; simpl; auto.
  destruct (String.eqb k k') eqn:E.
  - apply String.eqb_eq in E; subst; exfalso; apply N; simpl; auto.
  - rewrite IH; auto. intro I; apply N; simpl; auto.
Qed.

Lemma process_sheets_fold : forall {doc frame} `{PandasLib doc frame} sheets acc,
  NoDup (app (map fst acc) (map fst sheets)) ->
  fold_left (fun processed_data '(sheet_name, df) =>
               dict_set sheet_name {| dataframe := df; text := to_string df |} processed_data)
            sheets acc
  = app acc (map (fun '(n, df) => (n, {| dataframe := df; text := to_string df |})) sheets).
Proof.
  intros doc frame L sheets; induction sheets as [|[n df] sheets IH]; intros acc N; simpl.
  - rewrite app_nil_r; reflexivity.
  - rewrite dict_set_fresh.
    + rewrite IH.
      * rewrite <- app_assoc; reflexivity.
      * rewrite map_app, <- app_assoc; exact N.
    + intro I. apply NoDup_remove_2 in N. apply N. apply in_or_app; auto.
Qed.

Lemma process_sheets_list : forall {doc frame} `{PandasLib doc frame} sheets,
  NoDup (map fst sheets) ->
  process_sheets sheets = map (fun '(n, df) => (n, {| dataframe := df; text := to_string df |})) sheets.
Proof.
  intros doc frame L sheets N; unfold process_sheets.
  rewrite process_sheets_fold; [reflexivity | exact N].
Qed.

Lemma combine_fold : forall {frame} (l : dict (sheet_data frame)) a,
  fold_left (fun all_text '(_, sd) => all_text ++ text sd ++ nl) l a
  = a ++ fold_right (fun '(_, sd) acc => text sd ++ nl ++ acc) EmptyString l.
Proof.
  intros frame l; induction l as [|[n sd] l IH]; intro a; simpl.
  - rewrite str_app_nil; reflexivity.
  - rewrite IH, !str_app_assoc; reflexivity.
Qed.

Lemma extract_metrics_empty : extract_financial_metrics EmptyString = [].
Proof. vm_compute; reflexivity. Qed.

(** C2. For a PDF that cannot be read (the reader or the text extraction of
    a page raises), processing does not fail: the error is shown with
    st.error, the raw text is empty, the metrics are empty, and the result
    is returned. *)
Theorem unreadable_pdf_processed_empty :
  forall {doc page frame} `{PdfLib doc page} `{PandasLib doc frame}
         (self : processor frame) (f : doc) (e : py_exn) (u : ui_log),
  (PdfReader f = Err e \/
   exists pre p post, PdfReader f = Ok ((pre ++ p :: post)%list) /\
     Forall (fun q => exists t, extract_text q = Ok t) pre /\ extract_text p = Err e) ->
  let ed := {| excel_sheets := excel_sheets (extracted_data self);
               metrics := Some []; ed_raw_text := Some EmptyString |} in
  process_document self f "pdf" u
  = (Ok (ed, {| extracted_data := ed; raw_text := EmptyString |}),
     app u ["Error reading PDF: " ++ exn_str e]).
Proof.
  intros doc page frame P X self f e u R ed.
  unfold process_document, extract_pdf_text, try_except, lift, bindM, ret, st_error.
  cbn [String.eqb Ascii.eqb Bool.eqb raw_text extracted_data excel_sheets].
  assert (RE : match PdfReader f with
               | Ok pages => pdf_pages_text pages EmptyString
               | Err e0 => Err e0
               end = Err e).
  { destruct R as [E | (pre & p & post & E & F & T)]; rewrite E; auto.
    apply pdf_pages_text_err; auto. }
  rewrite RE. cbn [fst snd raw_text]. rewrite extract_metrics_empty; reflexivity.
Qed.

Lemma unreadable_pdf_processed_empty_witness :
  let ed := {| excel_sheets := None; metrics := Some []; ed_raw_text := Some EmptyString |} in
  @process_document unit unit string broken_pdf two_sheet_book new_processor tt "pdf" []
  = (Ok (ed, {| extracted_data := ed; raw_text := EmptyString |}),
     ["Error reading PDF: EOF marker not found"]).
Proof.
  apply (@unreadable_pdf_processed_empty unit unit string broken_pdf two_sheet_book
           new_processor tt (PdfReadError "EOF marker not found") []).
  left; reflexivity.
Defined.

(** C2 fails: processing a malformed PDF returns a result, with the empty
    text, instead of aborting. *)
Lemma malformed_pdf_not_aborted :
  match @process_document unit unit string broken_pdf two_sheet_book new_processor tt "pdf" [] with
  | (Ok (ed, _), log) => ed_raw_text ed = Some EmptyString /\ log = ["Error reading PDF: EOF marker not found"]
  | (Err _, _) => False
  end.
Proof. vm_compute; split; reflexivity. Qed.

(** C9. For a workbook that pandas reads as the sheets [sheets] (distinct
    names, in workbook order), processing it as "excel" returns the raw text
    made of each sheet's [to_string] rendering followed by a newline, in
    sheet order. *)
Theorem excel_text_sheet_order :
  forall {doc page frame} `{PdfLib doc page} `{PandasLib doc frame}
         (self : processor frame) (f : doc) (sheets : list (string * frame)) (u : ui_log),
  read_excel f = Ok sheets -> NoDup (map fst sheets) ->
  exists ed self', process_document self f "excel" u = (Ok (ed, self'), u) /\
    ed_raw_text ed = Some (fold_right (fun '(_, df) acc => to_string df ++ nl ++ acc) EmptyString sheets).
Proof.
  intros doc page frame P X self f sheets u R N.
  unfold process_document, extract_excel_data, try_except, lift, bindM, ret.
  cbn [String.eqb Ascii.eqb Bool.eqb].
  rewrite R. do 2 eexists; split; [reflexivity|].
  cbn [ed_raw_text raw_text]. f_equal.
  unfold combine_sheet_texts; rewrite combine_fold, process_sheets_list by exact N.
  clear R N. change (EmptyString ++ ?x) with x.
  induction sheets as [|[n df] sheets IH]; [reflexivity|].
  cbn [map fold_right text]. rewrite IH; reflexivity.
Qed.

Lemma excel_text_sheet_order_witness :
  exists ed self',
  @process_document unit unit string broken_pdf two_sheet_book new_processor tt "excel" []
  = (Ok (ed, self'), []) /\
  ed_raw_text ed = Some ("a-table" ++ nl ++ "b-table" ++ nl).
Proof.
  apply (@excel_text_sheet_order unit unit string broken_pdf two_sheet_book new_processor tt
           [("A", "a-table"); ("B", "b-table")] []).
  - reflexivity.
  - repeat constructor; simpl; intuition discriminate.
Defined.

(** ** Questions to the inference service *)

(** C3. When the request is refused with a ConnectionError, the call returns
    the fixed connection-error string as an ordinary answer. *)
Theorem connection_refused_answer :
  forall `{Requests} (self : OllamaClient) (prompt context msg : string),
  post (base_url self ++ "/api/generate") (ollama_payload prompt context) 30 = Err (ConnectionError msg) ->
  generate_response self prompt context = Ok connection_error_answer.
Proof.
  intros R self prompt context msg E.
  unfold generate_response, generate_body; rewrite E; reflexivity.
Qed.

Lemma connection_refused_answer_witness :
  @generate_response refusing_endpoint default_client "What was revenue?" "revenue: 100"
  = Ok connection_error_answer.
Proof.
  apply (@connection_refused_answer refusing_endpoint default_client _ _ "[Errno 111] Connection refused").
  reflexivity.
Defined.

(** C3 fails: a refused connection is not a failure of the call; it returns
    an answer string. *)
Lemma refused_connection_is_answer :
  @generate_response refusing_endpoint default_client "What was revenue?" "revenue: 100"
  = Ok "Error: Could not connect to Ollama. Please make sure Ollama is running on localhost:11434".
Proof. vm_compute; reflexivity. Qed.

(** C8. When the request times out, the call returns an answer string: the
    connection-error string for a connect timeout (a ConnectionError), and
    "Error: " followed by the exception text for a read timeout. *)
Theorem timeout_answer :
  forall `{Requests} (self : OllamaClient) (prompt context : string) (e : py_exn),
  post (base_url self ++ "/api/generate") (ollama_payload prompt context) 30 = Err e ->
  is_Timeout e = true ->
  generate_response self prompt context
  = Ok (if is_ConnectionError e then connection_error_answer else "Error: " ++ exn_str e).
Proof.
  intros R self prompt context e E T.
  unfold generate_response, generate_body; rewrite E.
  destruct (is_ConnectionError e); reflexivity.
Qed.

Lemma timeout_answer_witness :
  @generate_response silent_endpoint default_client "What was revenue?" "revenue: 100"
  = Ok ("Error: " ++ "Read timed out. (read timeout=30)").
Proof.
  apply (@timeout_answer silent_endpoint default_client _ _ (ReadTimeout "Read timed out. (read timeout=30)")).
  - reflexivity.
  - reflexivity.
Defined.

(** C8 fails: a read timeout gives another answer than a refused
    connection. *)
Lemma read_timeout_differs_from_refusal :
  @generate_response silent_endpoint default_client "What was revenue?" "revenue: 100"
  <> @generate_response refusing_endpoint default_client "What was revenue?" "revenue: 100".
Proof. vm_compute; discriminate. Qed.

(** C10. The call always returns a string and never raises: the service's
    answer when the request succeeds with status 200 and a "response" field,
    and otherwise a string beginning with "Error:". *)
Theorem generate_response_total :
  forall `{Requests} (self : OllamaClient) (prompt context : string),
  exists s, generate_response self prompt context = Ok s /\
    match service_answer (post (base_url self ++ "/api/generate") (ollama_payload prompt context) 30) with
    | Some a => s = a
    | None => String.prefix "Error:" s = true
    end.
Proof.
  intros R self prompt context.
  unfold generate_response, generate_body, service_answer.
  destruct (post _ _ _) as [resp|e].
  - destruct (Z.eqb (status_code resp) 200).
    + destruct (json resp) as [j|e].
      * destruct (dict_get "response" j) as [a|].
        -- eexists; split; reflexivity.
        -- destruct (is_ConnectionError _); eexists; split; reflexivity.
      * destruct (is_ConnectionError e); eexists; split; reflexivity.
    + eexists; split; reflexivity.
  - destruct (is_ConnectionError e); eexists; split; reflexivity.
Qed.

(** ** Further properties of [extract_financial_metrics] *)

Lemma fold_metric_shape : forall low ps d,
  NoDup (app (map fst d) (map fst ps)) ->
  fold_left (metric_step low) ps d
  = app d (flat_map (fun '(m, pat) =>
                       match re_findall pat low with
                       | [] => []
                       | c :: _ => [(m, clean_value c)]
                       end) ps).
Proof.
  intros low ps; induction ps as [|[m pat] ps IH]; intros d N; cbn [fold_left flat_map].
  - rewrite app_nil_r; reflexivity.
  - unfold metric_step at 2. destruct (re_findall pat low) as [|c cs].
    + rewrite IH; [reflexivity|]. simpl in N. eapply NoDup_remove_1; exact N.
    + rewrite dict_set_fresh.
      * rewrite IH, <- app_assoc; [reflexivity|].
        rewrite map_app, <- app_assoc; exact N.
      * intro I; simpl in N; apply NoDup_remove_2 in N; apply N, in_or_app; auto.
Qed.

Lemma py_lower_length : forall s, String.length (py_lower s) = String.length s.
Proof. induction s; simpl; auto. Qed.

Lemma digit_val_nonneg : forall a, is_digit a = true -> (0 <= digit_val a)%Z.
Proof.
  intros a H; unfold is_digit in H; apply andb_prop in H as [H _].
  apply Nat.leb_le in H; unfold digit_val; lia.
Qed.

Lemma frac_part_nonneg : forall s m e nd r e' nd',
  (0 <= m)%Z -> frac_part s m e nd = Some (r, e', nd') -> (0 <= r)%Z.
Proof.
  induction s as [|a t IH]; intros m e nd r e' nd' Hm H; cbn [frac_part] in H.
  - injection H; intros; subst; auto.
  - destruct (is_digit a) eqn:D; [|discriminate].
    refine (IH _ _ _ _ _ _ _ H); pose proof (digit_val_nonneg a D); lia.
Qed.

Lemma int_part_nonneg : forall s m nd r e nd',
  (0 <= m)%Z -> int_part s m nd = Some (r, e, nd') -> (0 <= r)%Z.
Proof.
  induction s as [|a t IH]; intros m nd r e nd' Hm H; cbn [int_part] in H.
  - injection H; intros; subst; auto.
  - destruct (is_digit a) eqn:D.
    + refine (IH _ _ _ _ _ _ H); pose proof (digit_val_nonneg a D); lia.
    + destruct (Ascii.eqb a "."%char); [|discriminate].
      apply (frac_part_nonneg _ _ _ _ _ _ _ Hm H).
Qed.

Lemma py_float_nonneg : forall s q, py_float s = Some q -> (0 <= q)%Q.
Proof.
  intros s q; unfold py_float.
  destruct (int_part s 0%Z 0) as [[[m e] nd]|] eqn:I; [|discriminate].
  destruct (Nat.eqb nd 0); [discriminate|]; intro H; injection H as <-.
  pose proof (int_part_nonneg _ _ _ _ _ _ (Z.le_refl 0) I).
  unfold Qle; simpl; lia.
Qed.

Lemma patterns_label_number : forall m pat,
  In (m, pat) patterns -> exists l ls, pat = label_number l ls.
Proof.
  intros m pat I; simpl in I.
  repeat (destruct I as [I|I]; [injection I; intros <- _; eexists _, _; reflexivity|]).
  contradiction.
Qed.

Lemma clean_value_str : forall l ls s c v,
  first_match (label_number l ls) s = Some c -> clean_value c = VStr v -> v = EmptyString.
Proof.
  intros l ls s c v FM CV.
  destruct (capture_digits _ _ _ _ FM) as (D & G & E & HD & HG).
  unfold clean_value in CV; rewrite E, (py_float_digits D G HD HG) in CV.
  destruct (Nat.eqb (String.length D + String.length G) 0) eqn:Z; [|discriminate].
  injection CV as <-; apply Nat.eqb_eq in Z.
  destruct D; [|simpl in Z; lia]; destruct G; [|simpl in Z; lia]; reflexivity.
Qed.

(** X1. The metrics are, in the order of the pattern table, exactly the
    metrics whose pattern matches the lower-cased text, each with the
    cleaned group of its leftmost match. *)
Theorem extract_metrics_shape : forall text,
  extract_financial_metrics text
  = flat_map (fun '(m, pat) =>
                match first_match pat (py_lower text) with
                | Some c => [(m, clean_value c)]
                | None => []
                end) patterns.
Proof.
  intro text; unfold extract_financial_metrics.
  rewrite fold_metric_shape by exact patterns_names_nodup.
  cbn [app]. apply flat_map_ext; intros [m pat].
  rewrite <- (findall_head (S (String.length (py_lower text)))) by lia.
  unfold re_findall; destruct (findall_from _ pat _); reflexivity.
Qed.

(** X2. Every number stored as a metric is non-negative: a minus sign is
    never part of the captured figure. *)
Theorem metric_floats_nonneg : forall text m q,
  In (m, VFloat q) (extract_financial_metrics text) -> (0 <= q)%Q.
Proof.
  intros text m q H; rewrite extract_metrics_shape in H.
  apply in_flat_map in H as [[m' pat] [_ H]].
  destruct (first_match pat (py_lower text)) as [c|]; [|contradiction].
  destruct H as [E|[]]; injection E as _ E.
  unfold clean_value in E; destruct (py_float (remove_commas c)) eqn:P; [|discriminate].
  injection E as <-; exact (py_float_nonneg _ _ P).
Qed.

Lemma metric_floats_nonneg_witness : (0 <= 120050 # 100)%Q.
Proof.
  apply (metric_floats_nonneg "Revenue: $1,200.50" "revenue").
  vm_compute; auto.
Defined.

(** X3. When a metric is stored as a string (its figure did not parse as a
    float), that string is empty. *)
Theorem metric_strings_empty : forall text m v,
  In (m, VStr v) (extract_financial_metrics text) -> v = EmptyString.
Proof.
  intros text m v H; rewrite extract_metrics_shape in H.
  apply in_flat_map in H as [[m' pat] [I H]].
  destruct (patterns_label_number _ _ I) as (l & ls & ->).
  destruct (first_match (label_number l ls) (py_lower text)) as [c|] eqn:FM; [|contradiction].
  destruct H as [E|[]]; injection E as _ E.
  exact (clean_value_str _ _ _ _ _ FM E).
Qed.

Lemma metric_strings_empty_witness : EmptyString = EmptyString.
Proof.
  apply (metric_strings_empty "costs: ,, in total" "expenses").
  vm_compute; auto.
Defined.

(** ** Further properties of the readers and of [process_document] *)

Lemma pdf_pages_text_ok : forall {doc page} `{PdfLib doc page} pages ts acc,
  map extract_text pages = map Ok ts ->
  pdf_pages_text pages acc = Ok (acc ++ fold_right (fun t r => t ++ nl ++ r) EmptyString ts).
Proof.
  intros doc page L pages; induction pages as [|p ps IH]; intros ts acc E;
    destruct ts as [|t ts]; try discriminate; simpl.
  - rewrite str_app_nil; reflexivity.
  - injection E as E1 E2. rewrite E1, (IH ts _ E2), !str_app_assoc; reflexivity.
Qed.

Lemma extract_pdf_text_total : forall {doc page} `{PdfLib doc page} f u,
  exists t msgs, extract_pdf_text f u = (Ok t, app u msgs) /\ length msgs <= 1.
Proof.
  intros doc page L f u; unfold extract_pdf_text, try_except, lift, bindM, st_error, ret.
  destruct (match PdfReader f with Ok pages => pdf_pages_text pages EmptyString | Err e => Err e end)
    as [t|e].
  - exists t, []; rewrite app_nil_r; auto.
  - exists EmptyString, ["Error reading PDF: " ++ exn_str e]; simpl; auto.
Qed.

Lemma extract_excel_data_total : forall {doc frame} `{PandasLib doc frame} f u,
  exists d msgs, extract_excel_data f u = (Ok d, app u msgs) /\ length msgs <= 1.
Proof.
  intros doc frame L f u; unfold extract_excel_data, try_except, lift, bindM, st_error, ret.
  destruct (match read_excel f with Ok excel_data => Ok (process_sheets excel_data) | Err e => Err e end)
    as [d|e].
  - exists d, []; rewrite app_nil_r; auto.
  - exists [], ["Error reading Excel file: " ++ exn_str e]; simpl; auto.
Qed.

(** X4. For a readable PDF, the text is the text of each page followed by
    a newline, in page order, and nothing is shown as an error. *)
Theorem extract_pdf_text_pages : forall {doc page} `{PdfLib doc page} f pages ts u,
  PdfReader f = Ok pages -> map extract_text pages = map Ok ts ->
  extract_pdf_text f u = (Ok (fold_right (fun t r => t ++ nl ++ r) EmptyString ts), u).
Proof.
  intros doc page L f pages ts u R E.
  unfold extract_pdf_text, try_except, lift; rewrite R, (pdf_pages_text_ok _ _ _ E); reflexivity.
Qed.

Lemma extract_pdf_text_pages_witness :
  @extract_pdf_text unit string two_page_pdf tt []
  = (Ok ("Revenue: 100" ++ nl ++ "Costs: 40" ++ nl ++ EmptyString), []).
Proof.
  refine (@extract_pdf_text_pages unit string two_page_pdf tt ["Revenue: 100"; "Costs: 40"]
            ["Revenue: 100"; "Costs: 40"] [] _ _); reflexivity.
Defined.

(** X5. For a workbook read as the sheets [sheets] (distinct names), the
    result maps each sheet name, in workbook order, to its dataframe and
    its [to_string] rendering, and nothing is shown as an error. *)
Theorem extract_excel_data_sheets : forall {doc frame} `{PandasLib doc frame} f sheets u,
  read_excel f = Ok sheets -> NoDup (map fst sheets) ->
  extract_excel_data f u
  = (Ok (map (fun '(n, df) => (n, {| dataframe := df; text := to_string df |})) sheets), u).
Proof.
  intros doc frame L f sheets u R N.
  unfold extract_excel_data, try_except, lift; rewrite R, (process_sheets_list _ N); reflexivity.
Qed.

Lemma extract_excel_data_sheets_witness :
  @extract_excel_data unit string two_sheet_book tt []
  = (Ok [("A", {| dataframe := "a-table"; text := "a-table" |});
         ("B", {| dataframe := "b-table"; text := "b-table" |})], []).
Proof.
  apply (@extract_excel_data_sheets unit string two_sheet_book tt [("A", "a-table"); ("B", "b-table")]).
  - reflexivity.
  - repeat constructor; simpl; intuition discriminate.
Defined.

(** X6. For a workbook pandas cannot read, processing it as "excel" shows
    "Error reading Excel file: " and the cause, and returns an empty sheet
    mapping, an empty text and empty metrics. *)
Theorem unreadable_excel_processed_empty :
  forall {doc page frame} `{PdfLib doc page} `{PandasLib doc frame}
         (self : processor frame) (f : doc) (e : py_exn) (u : ui_log),
  read_excel f = Err e ->
  let ed := {| excel_sheets := Some []; metrics := Some []; ed_raw_text := Some EmptyString |} in
  process_document self f "excel" u
  = (Ok (ed, {| extracted_data := ed; raw_text := EmptyString |}),
     app u ["Error reading Excel file: " ++ exn_str e]).
Proof.
  intros doc page frame P X self f e u R ed.
  unfold process_document, extract_excel_data, try_except, lift, bindM, ret, st_error.
  cbn [String.eqb Ascii.eqb Bool.eqb]. rewrite R.
  cbn [fst snd raw_text extracted_data excel_sheets combine_sheet_texts fold_left].
  rewrite extract_metrics_empty; reflexivity.
Qed.

Lemma unreadable_excel_processed_empty_witness :
  let ed := {| excel_sheets := Some []; metrics := Some []; ed_raw_text := Some EmptyString |} in
  @process_document unit unit string broken_pdf broken_book new_processor tt "excel" []
  = (Ok (ed, {| extracted_data := ed; raw_text := EmptyString |}),
     ["Error reading Excel file: File is not a zip file"]).
Proof.
  apply (@unreadable_excel_processed_empty unit unit string broken_pdf broken_book
           new_processor tt (ExcelReadError "File is not a zip file") []).
  reflexivity.
Defined.



(** X8. [process_document] never raises, whatever the file and the
    libraries do, and shows at most one error message. *)
Theorem process_document_never_raises :
  forall {doc page frame} `{PdfLib doc page} `{PandasLib doc frame}
         (self : processor frame) f file_type u,
  exists r msgs, process_document self f file_type u = (Ok r, app u msgs) /\ length msgs <= 1.
Proof.
  intros doc page frame P X self f file_type u.
  unfold process_document, bindM.
  destruct (String.eqb file_type "pdf").
  - destruct (extract_pdf_text_total f u) as (t & msgs & E & L).
    rewrite E; unfold ret; eauto.
  - destruct (String.eqb file_type "excel").
    + destruct (extract_excel_data_total f u) as (d & msgs & E & L).
      rewrite E; unfold ret; eauto.
    + unfold ret; eexists; exists []; rewrite app_nil_r; split; [reflexivity | simpl; lia].
Qed.

(** X9. For a file type other than "pdf" and "excel", no file is read:
    the metrics are extracted again from the processor's current text and
    nothing is shown. *)
Theorem process_document_other_type :
  forall {doc page frame} `{PdfLib doc page} `{PandasLib doc frame}
         (self : processor frame) f file_type u,
  String.eqb file_type "pdf" = false -> String.eqb file_type "excel" = false ->
  let ed := {| excel_sheets := excel_sheets (extracted_data self);
               metrics := Some (extract_financial_metrics (raw_text self));
               ed_raw_text := Some (raw_text self) |} in
  process_document self f file_type u
  = (Ok (ed, {| extracted_data := ed; raw_text := raw_text self |}), u).
Proof.
  intros doc page frame P X self f file_type u E1 E2 ed.
  unfold process_document, bindM; rewrite E1, E2; reflexivity.
Qed.

Lemma process_document_other_type_witness :
  let ed := {| excel_sheets := None; metrics := Some []; ed_raw_text := Some EmptyString |} in
  @process_document unit unit string broken_pdf broken_book new_processor tt "csv" []
  = (Ok (ed, {| extracted_data := ed; raw_text := EmptyString |}), []).
Proof.
  apply (@process_document_other_type unit unit string broken_pdf broken_book new_processor tt "csv" []);
    reflexivity.
Defined.

(** ** Further properties of the upload handler of [main] *)

(** X10. An uploaded file whose name does not end in ".pdf" (for instance
    "REPORT.PDF") is never given to the PDF reader: the result does not
    depend on it. *)
Theorem upload_non_pdf_ignores_pdf_reader :
  forall {doc page1 page2 frame} (P1 : PdfLib doc page1) (P2 : PdfLib doc page2)
         (X : PandasLib doc frame) name f u,
  py_endswith name ".pdf" = false ->
  @upload_document doc page1 frame P1 X name f u = @upload_document doc page2 frame P2 X name f u.
Proof.
  intros doc page1 page2 frame P1 P2 X name f u E.
  unfold upload_document, file_type_of; rewrite E.
  unfold process_document; cbn [String.eqb Ascii.eqb Bool.eqb]; reflexivity.
Qed.

Lemma upload_non_pdf_ignores_pdf_reader_witness :
  @upload_document unit unit string broken_pdf two_sheet_book "REPORT.PDF" tt []
  = @upload_document unit string string two_page_pdf two_sheet_book "REPORT.PDF" tt [].
Proof.
  apply (upload_non_pdf_ignores_pdf_reader broken_pdf two_page_pdf two_sheet_book).
  reflexivity.
Defined.

(** X11. An uploaded file whose name ends in ".pdf" is never given to
    pandas: the result does not depend on it. *)
Theorem upload_pdf_ignores_pandas :
  forall {doc page frame} (P : PdfLib doc page) (X1 X2 : PandasLib doc frame) name f u,
  py_endswith name ".pdf" = true ->
  @upload_document doc page frame P X1 name f u = @upload_document doc page frame P X2 name f u.
Proof.
  intros doc page frame P X1 X2 name f u E.
  unfold upload_document, file_type_of; rewrite E.
  unfold process_document; cbn [String.eqb Ascii.eqb Bool.eqb]; reflexivity.
Qed.

Lemma upload_pdf_ignores_pandas_witness :
  @upload_document unit string string two_page_pdf two_sheet_book "report.pdf" tt []
  = @upload_document unit string string two_page_pdf broken_book "report.pdf" tt [].
Proof.
  apply (upload_pdf_ignores_pandas two_page_pdf two_sheet_book broken_book).
  reflexivity.
Defined.

(** X12. The uploaded document has an 'excel_sheets' entry exactly when the
    file name does not end in ".pdf". *)
Theorem upload_excel_sheets_iff :
  forall {doc page frame} `{PdfLib doc page} `{PandasLib doc frame} name f u ed u',
  upload_document name f u = (Ok ed, u') ->
  (excel_sheets ed = None <-> py_endswith name ".pdf" = true).
Proof.
  intros doc page frame P X name f u ed u' H.
  unfold upload_document, file_type_of, process_document, bindM in H.
  destruct (py_endswith name ".pdf").
  - destruct (extract_pdf_text_total f u) as (t & msgs & E & _).
    cbn [String.eqb Ascii.eqb Bool.eqb] in H; rewrite E in H.
    unfold ret in H; injection H; intros _ <-; split; reflexivity.
  - destruct (extract_excel_data_total f u) as (d & msgs & E & _).
    cbn [String.eqb Ascii.eqb Bool.eqb] in H; rewrite E in H.
    unfold ret in H; injection H; intros _ <-; split; discriminate.
Qed.

Lemma upload_excel_sheets_iff_witness :
  exists ed u',
  @upload_document unit unit string broken_pdf two_sheet_book "report.xlsx" tt [] = (Ok ed, u') /\
  (excel_sheets ed = None <-> py_endswith "report.xlsx" ".pdf" = true).
Proof.
  do 2 eexists; split; [reflexivity|].
  apply (@upload_excel_sheets_iff unit unit string broken_pdf two_sheet_book "report.xlsx" tt [] _ []).
  reflexivity.
Defined.

(** ** Further properties of [generate_response] *)

Lemma substring_prefix_idem : forall n s, substring 0 n (substring 0 n s) = substring 0 n s.
Proof.
  intros n s; revert n; induction s as [|a t IH]; intros [|n]; simpl; auto.
  rewrite IH; reflexivity.
Qed.

Lemma nat_digits_spec : forall fuel n acc, n < fuel ->
  exists ds, nat_digits fuel n acc = ds ++ acc /\ ds <> EmptyString
    /\ all_in digit_cls ds = true /\ digits_value ds = Z.of_nat n.
Proof.
  induction fuel as [|f IH]; intros n acc L; [lia|].
  cbn [nat_digits].
  assert (M : n mod 10 < 10) by (apply Nat.mod_upper_bound; lia).
  assert (A : nat_of_ascii (ascii_of_nat (48 + n mod 10)) = 48 + n mod 10)
    by (apply nat_ascii_embedding; lia).
  assert (D : all_in digit_cls (String (ascii_of_nat (48 + n mod 10)) EmptyString) = true).
  { cbn [all_in]; rewrite digit_cls_is_digit; unfold is_digit; rewrite A.
    rewrite !andb_true_iff, !Nat.leb_le; repeat split; try reflexivity; lia. }
  assert (V : forall m, digits_from (String (ascii_of_nat (48 + n mod 10)) EmptyString) m
                        = (10 * m + Z.of_nat (n mod 10))%Z).
  { intro m; cbn [digits_from]; unfold digit_val; rewrite A; lia. }
  destruct (Nat.ltb n 10) eqn:LT.
  - apply Nat.ltb_lt in LT.
    exists (String (ascii_of_nat (48 + n mod 10)) EmptyString); repeat split; auto; try discriminate.
    unfold digits_value; rewrite V, Nat.mod_small by exact LT; lia.
  - apply Nat.ltb_ge in LT.
    destruct (IH (n / 10) (String (ascii_of_nat (48 + n mod 10)) acc)) as (ds & E & NE & DS & VS).
    { apply Nat.Div0.div_lt_upper_bound; lia. }
    exists (ds ++ String (ascii_of_nat (48 + n mod 10)) EmptyString); repeat split.
    + rewrite E, str_app_assoc; reflexivity.
    + destruct ds; [contradiction | discriminate].
    + rewrite all_in_app, DS, D; reflexivity.
    + unfold digits_value in *; rewrite digits_from_app, VS, V.
      pose proof (Nat.div_mod_eq n 10); lia.
Qed.

Lemma int_str_spec : forall z, (0 <= z)%Z ->
  int_str z <> EmptyString /\ all_in digit_cls (int_str z) = true /\ digits_value (int_str z) = z.
Proof.
  intros z Z0; unfold int_str.
  destruct (Z.ltb_spec z 0) as [|_]; [lia|].
  destruct (nat_digits_spec (S (Z.to_nat z)) (Z.to_nat z) EmptyString ltac:(lia))
    as (ds & E & NE & DS & VS).
  rewrite E, str_app_nil, VS, Z2Nat.id by exact Z0; auto.
Qed.

(** X13. Only the first 2000 characters of the context reach the model:
    the answer for a context is the answer for its first 2000 characters. *)
Theorem generate_response_context_prefix :
  forall `{Requests} (self : OllamaClient) (prompt context : string),
  generate_response self prompt context = generate_response self prompt (substring 0 2000 context).
Proof.
  intros R self prompt context.
  unfold generate_response, generate_body, ollama_payload, full_prompt.
  rewrite substring_prefix_idem; reflexivity.
Qed.

(** X14. When the service answers with a status other than 200, the answer
    is "Error: Could not connect to Ollama (Status: N)" where N is the status
    code written in decimal digits. *)
Theorem status_error_answer :
  forall `{Requests} (self : OllamaClient) (prompt context : string) resp,
  post (base_url self ++ "/api/generate") (ollama_payload prompt context) 30 = Ok resp ->
  status_code resp <> 200%Z -> (0 <= status_code resp)%Z ->
  exists ds, generate_response self prompt context
             = Ok ("Error: Could not connect to Ollama (Status: " ++ ds ++ ")")
    /\ ds <> EmptyString /\ all_in digit_cls ds = true /\ digits_value ds = status_code resp.
Proof.
  intros R self prompt context resp E N Z0.
  exists (int_str (status_code resp)); split.
  - unfold generate_response, generate_body; rewrite E.
    apply Z.eqb_neq in N; rewrite N; reflexivity.
  - apply int_str_spec, Z0.
Qed.

Lemma status_error_answer_witness :
  exists ds, @generate_response not_found_endpoint default_client "What was revenue?" "revenue: 100"
             = Ok ("Error: Could not connect to Ollama (Status: " ++ ds ++ ")")
    /\ ds <> EmptyString /\ all_in digit_cls ds = true /\ digits_value ds = 404%Z.
Proof.
  apply (@status_error_answer not_found_endpoint default_client _ _
           {| status_code := 404%Z; json := Ok [("error", "model not found")] |}).
  - reflexivity.
  - discriminate.
  - cbn; lia.
Defined.

(** X15. When the service answers with status 200 and a JSON body without
    a "response" field, the answer is "Error: 'response'" (the text of the
    KeyError). *)
Theorem missing_response_key_answer :
  forall `{Requests} (self : OllamaClient) (prompt context : string) resp j,
  post (base_url self ++ "/api/generate") (ollama_payload prompt context) 30 = Ok resp ->
  status_code resp = 200%Z -> json resp = Ok j -> dict_get "response" j = None ->
  generate_response self prompt context = Ok "Error: 'response'".
Proof.
  intros R self prompt context resp j E S J K.
  unfold generate_response, generate_body; rewrite E, S; cbn [Z.eqb]; rewrite J, K; reflexivity.
Qed.

Lemma missing_response_key_answer_witness :
  @generate_response keyless_endpoint default_client "What was revenue?" "revenue: 100"
  = Ok "Error: 'response'".
Proof.
  apply (@missing_response_key_answer keyless_endpoint default_client _ _
           {| status_code := 200%Z; json := Ok [("error", "model not found")] |}
           [("error", "model not found")]); reflexivity.
Defined.

(** ** The document statistics of [main] *)

Lemma split_words_space : forall x w y cur, py_isspace w = true ->
  split_words (x ++ String w y) cur = app (split_words x cur) (split_words y EmptyString).
Proof.
  induction x as [|a x IH]; intros w y cur W; cbn [String.append split_words].
  - rewrite W; destruct (String.eqb cur EmptyString); reflexivity.
  - destruct (py_isspace a).
    + destruct (String.eqb cur EmptyString); rewrite IH by exact W; reflexivity.
    + apply IH, W.
Qed.

Lemma split_pages : forall ts,
  py_split (fold_right (fun t r => t ++ nl ++ r) EmptyString ts) = flat_map py_split ts.
Proof.
  induction ts as [|t ts IH]; [reflexivity|].
  cbn [fold_right flat_map]; unfold py_split at 1, nl; cbn [String.append].
  rewrite split_words_space by reflexivity; rewrite <- IH; reflexivity.
Qed.

(** X16. The words of a readable PDF's text are the words of its pages, in
    page order: a page break never joins two words, and the "Words"
    statistic is the sum over the pages. *)
Theorem pdf_words_by_page : forall {doc page} `{PdfLib doc page} f pages ts u,
  PdfReader f = Ok pages -> map extract_text pages = map Ok ts ->
  exists t, extract_pdf_text f u = (Ok t, u)
    /\ py_split t = flat_map py_split ts
    /\ word_count t = list_sum (map word_count ts).
Proof.
  intros doc page L f pages ts u R E.
  exists (fold_right (fun t r => t ++ nl ++ r) EmptyString ts); repeat split.
  - unfold extract_pdf_text, try_except, lift; rewrite R, (pdf_pages_text_ok _ _ _ E); reflexivity.
  - apply split_pages.
  - unfold word_count; rewrite split_pages.
    clear; induction ts as [|t ts IH]; [reflexivity|].
    cbn [flat_map map list_sum]; rewrite length_app, IH; reflexivity.
Qed.

Lemma pdf_words_by_page_witness :
  exists t, @extract_pdf_text unit string two_page_pdf tt [] = (Ok t, [])
    /\ py_split t = flat_map py_split ["Revenue: 100"; "Costs: 40"]
    /\ word_count t = list_sum (map word_count ["Revenue: 100"; "Costs: 40"]).
Proof.
  apply (@pdf_words_by_page unit string two_page_pdf tt ["Revenue: 100"; "Costs: 40"]);
    reflexivity.
Defined.
